(** * SonosButtonControl: a shallow embedding of the ESP32 button firmware

    The firmware in [hardware/SonosButtonControl.ino] keeps its whole state
    in global variables and talks to the outside world through the Arduino
    core (serial port, GPIO, WiFi, HTTP client, NVS preferences).  Here the
    globals become one record [State], every call into the Arduino core
    that produces an observable effect appends an [Event] to the [trace]
    carried by the state, and every value the environment hands back
    (pin levels, [millis()], [WiFi.status()], HTTP replies, serial lines)
    is an explicit argument of the function that reads it. *)

From Stdlib Require Import ZArith Lia Ascii String.
From stdpp Require Import base tactics list strings gmap fin_maps.
From Equations Require Import Equations.

Local Open Scope Z_scope.

(** ** The Arduino [String] operations the sketch uses *)

Module WString.

(** [s.length()] *)
Definition length (s : string) : Z := Z.of_nat (String.length s).

(** [s.startsWith(p)] *)
Definition startsWith (s p : string) : bool := String.prefix p s.

(** [s.substring(from)]: the characters from index [from] to the end,
    the empty string when [from] is past the end. *)
Fixpoint substring (from : nat) (s : string) : string :=
  match from, s with
  | O, _ => s
  | S n, String _ s' => substring n s'
  | S _, EmptyString => EmptyString
  end.

(** [s.trim()]: drops the leading and the trailing [isspace] characters. *)
Fixpoint trim_leading (s : string) : string :=
  match s with
  | String c s' => if Ascii.is_space c then trim_leading s' else s
  | EmptyString => EmptyString
  end.

Fixpoint trim_trailing (s : string) : string :=
  match s with
  | String c s' =>
      match trim_trailing s' with
      | EmptyString => if Ascii.is_space c then EmptyString else String c EmptyString
      | r => String c r
      end
  | EmptyString => EmptyString
  end.

Definition trim (s : string) : string := trim_trailing (trim_leading s).

(** [s.c_str()] read as a C string: the characters before the first NUL. *)
Fixpoint c_str (s : string) : string :=
  match s with
  | String c s' => if Ascii.eqb c "000" then EmptyString else String c (c_str s')
  | EmptyString => EmptyString
  end.

(** [a == b] with a C string [b]: [String::equals] for a character pointer
    compares the two buffers with [strcmp], which stops at the first NUL. *)
Definition equals (a b : string) : bool := bool_decide (c_str a = c_str b).

End WString.

(** ** Constants of the sketch and of the Arduino core *)

Definition BUTTON1_PIN : Z := 12.
Definition BUTTON2_PIN : Z := 14.
Definition MIN_PRESS_TIME : Z := 50.
Definition STATUS_LED : Z := 2.

Definition LOW : Z := 0.
Definition HIGH : Z := 1.
Definition WL_CONNECTED : Z := 3.
Definition WL_DISCONNECTED : Z := 6.

(** [unsigned long] is 32 bits wide on the ESP32; subtraction wraps. *)
Definition ULONG_MOD : Z := 2 ^ 32.
Definition ulong_sub (a b : Z) : Z := (a - b) mod ULONG_MOD.

(** ** Observable effects *)

Inductive Event : Type :=
| SerialPrint (text : string)
| SerialPrintln (text : string)
| SerialPrintlnInt (n : Z)
| DigitalWrite (pin level : Z)
| Delay (ms : Z)
| WiFiBegin (ssid pass : string)
| WiFiDisconnect (wifioff : bool)
| SetInsecure
| HttpBegin (secure : bool) (url : string)
| HttpAddHeader (name value : string)
| HttpGET
| HttpEnd.

Global Instance Event_eq_dec : EqDecision Event.
Proof. solve_decision. Defined.

(** ** The global variables *)

Record State : Type := mkState {
  pressStartTime1 : Z;
  pressStartTime2 : Z;
  button1Pressed : bool;
  button2Pressed : bool;
  wifiSsid : string;
  wifiPass : string;
  baseUrl : string;
  apiKey : string;
  preferences : gmap string string;
  wifiConnected : bool;
  trace : list Event
}.

Definition set_pressStartTime1 (v : Z) (s : State) : State :=
  mkState v (pressStartTime2 s) (button1Pressed s) (button2Pressed s)
    (wifiSsid s) (wifiPass s) (baseUrl s) (apiKey s)
    (preferences s) (wifiConnected s) (trace s).
Definition set_pressStartTime2 (v : Z) (s : State) : State :=
  mkState (pressStartTime1 s) v (button1Pressed s) (button2Pressed s)
    (wifiSsid s) (wifiPass s) (baseUrl s) (apiKey s)
    (preferences s) (wifiConnected s) (trace s).
Definition set_button1Pressed (v : bool) (s : State) : State :=
  mkState (pressStartTime1 s) (pressStartTime2 s) v (button2Pressed s)
    (wifiSsid s) (wifiPass s) (baseUrl s) (apiKey s)
    (preferences s) (wifiConnected s) (trace s).
Definition set_button2Pressed (v : bool) (s : State) : State :=
  mkState (pressStartTime1 s) (pressStartTime2 s) (button1Pressed s) v
    (wifiSsid s) (wifiPass s) (baseUrl s) (apiKey s)
    (preferences s) (wifiConnected s) (trace s).
Definition set_wifiSsid (v : string) (s : State) : State :=
  mkState (pressStartTime1 s) (pressStartTime2 s) (button1Pressed s)
    (button2Pressed s) v (wifiPass s) (baseUrl s) (apiKey s)
    (preferences s) (wifiConnected s) (trace s).
Definition set_wifiPass (v : string) (s : State) : State :=
  mkState (pressStartTime1 s) (pressStartTime2 s) (button1Pressed s)
    (button2Pressed s) (wifiSsid s) v (baseUrl s) (apiKey s)
    (preferences s) (wifiConnected s) (trace s).
Definition set_baseUrl (v : string) (s : State) : State :=
  mkState (pressStartTime1 s) (pressStartTime2 s) (button1Pressed s)
    (button2Pressed s) (wifiSsid s) (wifiPass s) v (apiKey s)
    (preferences s) (wifiConnected s) (trace s).
Definition set_apiKey (v : string) (s : State) : State :=
  mkState (pressStartTime1 s) (pressStartTime2 s) (button1Pressed s)
    (button2Pressed s) (wifiSsid s) (wifiPass s) (baseUrl s) v
    (preferences s) (wifiConnected s) (trace s).
Definition set_preferences (v : gmap string string) (s : State) : State :=
  mkState (pressStartTime1 s) (pressStartTime2 s) (button1Pressed s)
    (button2Pressed s) (wifiSsid s) (wifiPass s) (baseUrl s) (apiKey s)
    v (wifiConnected s) (trace s).
Definition set_wifiConnected (v : bool) (s : State) : State :=
  mkState (pressStartTime1 s) (pressStartTime2 s) (button1Pressed s)
    (button2Pressed s) (wifiSsid s) (wifiPass s) (baseUrl s) (apiKey s)
    (preferences s) v (trace s).

(** Appending one effect to the trace. *)
Definition emit (e : Event) (s : State) : State :=
  mkState (pressStartTime1 s) (pressStartTime2 s) (button1Pressed s)
    (button2Pressed s) (wifiSsid s) (wifiPass s) (baseUrl s) (apiKey s)
    (preferences s) (wifiConnected s) (trace s ++ [e]).

(** ** The Arduino core calls with an effect *)

Definition Serial_print (text : string) : State -> State := emit (SerialPrint text).
Definition Serial_println (text : string) : State -> State := emit (SerialPrintln text).
Definition Serial_println_int (n : Z) : State -> State := emit (SerialPrintlnInt n).
Definition digitalWrite (pin level : Z) : State -> State := emit (DigitalWrite pin level).
Definition delay (ms : Z) : State -> State := emit (Delay ms).

(** [Preferences]: a key/value store of strings.  [getString] answers the
    default for a key that was never written. *)
Definition preferences_getString (key default : string) (s : State) : string :=
  match preferences s !! key with Some v => v | None => default end.
Definition preferences_clear (s : State) : State :=
  set_preferences ∅ s.

(** ** What the environment answers *)

(** The platform as seen by one call into the firmware.  The WiFi driver:
    [status k] is what the [k]-th call of [WiFi.status()] returns (counted
    from 0), and [localIP] is the printed form of [WiFi.localIP()].  The
    flash store: [nvs_accepts key value] tells whether writing the C string
    [value] under [key] succeeds ([nvs_set_str] fails when the value exceeds
    the size of an entry or the partition has no room left). *)
Record WiFiEnv : Type := mkWiFiEnv {
  status : nat -> Z;
  localIP : string;
  nvs_accepts : string -> string -> bool
}.

(** [preferences.putString(key, value)] hands [value.c_str()] to the store:
    what is kept is the value up to its first NUL, and nothing changes when
    the store refuses the write.  The sketch does not look at the result. *)
Definition preferences_putString (env : WiFiEnv) (key value : string) (s : State)
  : State :=
  if nvs_accepts env key (WString.c_str value) then
    set_preferences (<[key := WString.c_str value]> (preferences s)) s
  else s.

(** The outcome of one [GET()]: the return code, and the body that
    [getString()] yields. *)
Record HttpReply : Type := mkHttpReply {
  httpResponseCode : Z;
  response : string
}.

(** One pass of [checkButtonPressAndRelease]: the two pin levels, the value
    of [millis()] in the first and in the second button's block (at most one
    call is made in each), and the replies of the server, should either
    block issue a request. *)
Record ButtonPoll : Type := mkButtonPoll {
  button1State : Z;
  button2State : Z;
  millis1 : Z;
  millis2 : Z;
  reply1 : HttpReply;
  reply2 : HttpReply
}.

(** ** Configuration store *)

Definition loadConfig (s : State) : State :=
  let s := set_wifiSsid (preferences_getString "wifiSsid" "" s) s in
  let s := set_wifiPass (preferences_getString "wifiPass" "" s) s in
  let s := set_baseUrl (preferences_getString "baseUrl" "" s) s in
  let s := set_apiKey (preferences_getString "apiKey" "" s) s in
  let s := Serial_println "Loaded configuration:" s in
  let s := Serial_println ("WIFI_SSID: " +:+ wifiSsid s) s in
  let s := Serial_println ("BASE_URL: " +:+ baseUrl s) s in
  let s := Serial_print "API_KEY: " s in
  Serial_println (if 0 <? WString.length (apiKey s) then "[SET]" else "[NOT SET]") s.

Definition saveConfig (env : WiFiEnv) (s : State) : State :=
  let s := preferences_putString env "wifiSsid" (wifiSsid s) s in
  let s := preferences_putString env "wifiPass" (wifiPass s) s in
  let s := preferences_putString env "baseUrl" (baseUrl s) s in
  let s := preferences_putString env "apiKey" (apiKey s) s in
  Serial_println "Configuration saved" s.

(** ** Connectivity *)

(** The character written as a backslash followed by n in the sketch. *)
Definition NL : ascii := "010"%char.

Definition inspect {A : Type} (a : A) : { b : A | a = b } := exist _ a eq_refl.

(** The polling loop of [connectToWifi]:
    [while (WiFi.status() != WL_CONNECTED && attempts < 20) { ... }].
    [reads] counts the calls of [WiFi.status()] made so far; the result
    carries the count after the loop, the final [attempts] and the state. *)
Equations? wifi_wait (env : WiFiEnv) (reads : nat) (attempts : Z) (s : State)
  : nat * Z * State by wf (Z.to_nat (20 - attempts)) lt :=
  wifi_wait env reads attempts s
    with inspect (negb (status env reads =? WL_CONNECTED) && (attempts <? 20)) := {
    | exist _ true Hcond =>
        let s := delay 500 s in
        let s := Serial_print "." s in
        let attempts := attempts + 1 in
        let s := digitalWrite STATUS_LED (Z.rem attempts 2) s in
        wifi_wait env (S reads) attempts s
    | exist _ false _ => (S reads, attempts, s) }.
Proof.
  apply andb_prop in Hcond as [_ Hlt]. apply Z.ltb_lt in Hlt. lia.
Qed.

Definition connectToWifi (env : WiFiEnv) (s : State) : State :=
  if (WString.length (wifiSsid s) =? 0) || (WString.length (wifiPass s) =? 0) then
    Serial_println "WiFi credentials not set" s
  else
    let s := Serial_print "Connecting to WiFi: " s in
    let s := Serial_println (wifiSsid s) s in
    let s := emit (WiFiBegin (wifiSsid s) (wifiPass s)) s in
    let '(reads, attempts, s) := wifi_wait env 0 0 s in
    if status env reads =? WL_CONNECTED then
      let s := Serial_println (String NL "WiFi connected") s in
      let s := Serial_print "IP address: " s in
      let s := Serial_println (localIP env) s in
      let s := set_wifiConnected true s in
      digitalWrite STATUS_LED LOW s
    else
      let s := Serial_println (String NL "Failed to connect to WiFi") s in
      set_wifiConnected false s.

(** ** Factory reset *)

(** [for (int i = 0; i < 3; i++) { HIGH; delay(100); LOW; delay(100); }] *)
Fixpoint blink_loop (remaining : nat) (s : State) : State :=
  match remaining with
  | O => s
  | S n =>
      let s := digitalWrite STATUS_LED HIGH s in
      let s := delay 100 s in
      let s := digitalWrite STATUS_LED LOW s in
      let s := delay 100 s in
      blink_loop n s
  end.

Definition resetConfig (s : State) : State :=
  let s := Serial_println "Resetting all configuration..." s in
  let s := preferences_clear s in
  let s := set_wifiSsid "" s in
  let s := set_wifiPass "" s in
  let s := set_baseUrl "" s in
  let s := set_apiKey "" s in
  let s := emit (WiFiDisconnect true) s in
  let s := set_wifiConnected false s in
  let s := blink_loop 3 s in
  Serial_println "All configuration reset" s.

(** ** Request dispatch *)

Definition makeApiCall (endpoint : string) (reply : HttpReply) (s : State) : State :=
  if negb (wifiConnected s) || (WString.length (baseUrl s) =? 0) then
    Serial_println "Cannot make API call: WiFi not connected or Base URL not set" s
  else
    let url := baseUrl s +:+ endpoint in
    let s := Serial_print "Making API call to: " s in
    let s := Serial_println url s in
    let isHttps := WString.startsWith url "https://" in
    if isHttps then
      let s := emit SetInsecure s in
      let s := emit (HttpBegin true url) s in
      let s := if 0 <? WString.length (apiKey s)
               then emit (HttpAddHeader "Authorization" ("Basic " +:+ apiKey s)) s
               else s in
      let s := digitalWrite STATUS_LED HIGH s in
      let s := emit HttpGET s in
      let s := if 0 <? httpResponseCode reply then
                 let s := Serial_print "HTTPS Response code: " s in
                 let s := Serial_println_int (httpResponseCode reply) s in
                 Serial_println ("Response: " +:+ response reply) s
               else
                 let s := Serial_print "HTTPS Error code: " s in
                 Serial_println_int (httpResponseCode reply) s in
      let s := digitalWrite STATUS_LED LOW s in
      emit HttpEnd s
    else
      let s := emit (HttpBegin false url) s in
      let s := if 0 <? WString.length (apiKey s)
               then emit (HttpAddHeader "Authorization" ("Basic " +:+ apiKey s)) s
               else s in
      let s := digitalWrite STATUS_LED HIGH s in
      let s := emit HttpGET s in
      let s := if 0 <? httpResponseCode reply then
                 let s := Serial_print "HTTP Response code: " s in
                 let s := Serial_println_int (httpResponseCode reply) s in
                 Serial_println ("Response: " +:+ response reply) s
               else
                 let s := Serial_print "HTTP Error code: " s in
                 Serial_println_int (httpResponseCode reply) s in
      let s := digitalWrite STATUS_LED LOW s in
      emit HttpEnd s.

(** ** Command interpreter *)

(** [line] is [None] when [Serial.available()] is zero, and otherwise the
    string that [Serial.readStringUntil] hands back. *)
Definition checkSerialInput (env : WiFiEnv) (line : option string) (s : State) : State :=
  match line with
  | None => s
  | Some raw =>
      let command := WString.trim raw in
      let s := Serial_println ("Received command: " +:+ command) s in
      let s :=
        if WString.startsWith command "WIFI_SSID " then
          let s := set_wifiSsid (WString.substring 10 command) s in
          let s := Serial_println ("WiFi SSID set to: " +:+ wifiSsid s) s in
          saveConfig env s
        else if WString.startsWith command "WIFI_PASS " then
          let s := set_wifiPass (WString.substring 10 command) s in
          let s := Serial_println "WiFi password set" s in
          saveConfig env s
        else if WString.startsWith command "BASE_URL " then
          let s := set_baseUrl (WString.substring 9 command) s in
          let s := Serial_println ("Base URL set to: " +:+ baseUrl s) s in
          saveConfig env s
        else if WString.startsWith command "API_KEY " then
          let s := set_apiKey (WString.substring 8 command) s in
          let s := Serial_println "API key set" s in
          saveConfig env s
        else if WString.equals command "FLASH_RESET" then
          resetConfig s
        else
          Serial_println ("Unknown command: " +:+ command) s in
      if (WString.startsWith command "WIFI_SSID " || WString.startsWith command "WIFI_PASS ")
         && (0 <? WString.length (wifiSsid s)) && (0 <? WString.length (wifiPass s))
      then connectToWifi env s
      else s
  end.

(** ** Input monitor *)

Definition checkButtonPressAndRelease (p : ButtonPoll) (s : State) : State :=
  let s :=
    if (button1State p =? LOW) && negb (button1Pressed s) then
      let s := set_pressStartTime1 (millis1 p) s in
      set_button1Pressed true s
    else s in
  let s :=
    if (button1State p =? HIGH) && button1Pressed s then
      let s :=
        if MIN_PRESS_TIME <=? ulong_sub (millis1 p) (pressStartTime1 s) then
          let s := Serial_println "Button 1 pressed" s in
          makeApiCall "/play" (reply1 p) s
        else s in
      set_button1Pressed false s
    else s in
  let s :=
    if (button2State p =? LOW) && negb (button2Pressed s) then
      let s := set_pressStartTime2 (millis2 p) s in
      set_button2Pressed true s
    else s in
  let s :=
    if (button2State p =? HIGH) && button2Pressed s then
      let s :=
        if MIN_PRESS_TIME <=? ulong_sub (millis2 p) (pressStartTime2 s) then
          let s := Serial_println "Button 2 pressed" s in
          makeApiCall "/pause" (reply2 p) s
        else s in
      set_button2Pressed false s
    else s in
  s.

(** Successive passes of the input monitor. *)
Definition run_polls (ps : list ButtonPoll) (s : State) : State :=
  foldl (fun s p => checkButtonPressAndRelease p s) s ps.

(** * Observations used in the statements *)

(** The four configuration fields as one value. *)
Definition config (s : State) : string * string * string * string :=
  (wifiSsid s, wifiPass s, baseUrl s, apiKey s).

(** The effects that happened between an earlier and a later state. *)
Definition new_events (before after : State) : list Event :=
  drop (length (trace before)) (trace after).

(** Appending a batch of effects. *)
Definition emit_all (evs : list Event) (s : State) : State :=
  mkState (pressStartTime1 s) (pressStartTime2 s) (button1Pressed s)
    (button2Pressed s) (wifiSsid s) (wifiPass s) (baseUrl s) (apiKey s)
    (preferences s) (wifiConnected s) (trace s ++ evs).

(** The effects of one call of [makeApiCall]. *)
Definition dispatch_events (endpoint : string) (reply : HttpReply) (s : State)
  : list Event :=
  new_events s (makeApiCall endpoint reply s).

(** Effects that touch the network. *)
Definition is_network_event (e : Event) : bool :=
  match e with
  | WiFiBegin _ _ | WiFiDisconnect _ | SetInsecure | HttpBegin _ _
  | HttpAddHeader _ _ | HttpGET | HttpEnd => true
  | _ => false
  end.

(** The levels written to the status LED, in order. *)
Definition led_writes (evs : list Event) : list Z :=
  omap (fun e => match e with
                 | DigitalWrite pin level =>
                     if pin =? STATUS_LED then Some level else None
                 | _ => None
                 end) evs.

(** The level last written to the status LED, if any. *)
Definition indicator (evs : list Event) : option Z := last (led_writes evs).

(** The header carrying the credential, when there is one. *)
Definition auth_header (s : State) : list Event :=
  if bool_decide (apiKey s = "") then []
  else [HttpAddHeader "Authorization" ("Basic " +:+ apiKey s)].

(** What is logged about the reply on either transport. *)
Definition reply_log (secure : bool) (reply : HttpReply) : list Event :=
  if 0 <? httpResponseCode reply then
    [SerialPrint (if secure then "HTTPS Response code: " else "HTTP Response code: ");
     SerialPrintlnInt (httpResponseCode reply);
     SerialPrintln ("Response: " +:+ response reply)]
  else
    [SerialPrint (if secure then "HTTPS Error code: " else "HTTP Error code: ");
     SerialPrintlnInt (httpResponseCode reply)].

(** The effects of a call that passes the guard, in order. *)
Definition request_events (endpoint : string) (reply : HttpReply) (s : State)
  : list Event :=
  let url := baseUrl s +:+ endpoint in
  let secure := WString.startsWith url "https://" in
  [SerialPrint "Making API call to: "; SerialPrintln url]
  ++ (if secure then [SetInsecure] else [])
  ++ [HttpBegin secure url]
  ++ auth_header s
  ++ [DigitalWrite STATUS_LED HIGH; HttpGET]
  ++ reply_log secure reply
  ++ [DigitalWrite STATUS_LED LOW; HttpEnd].

(** The effects that make up the HTTP request itself. *)
Definition is_request_event (e : Event) : bool :=
  match e with
  | HttpBegin _ _ | HttpAddHeader _ _ | HttpGET | HttpEnd => true
  | _ => false
  end.

(** The effects of [resetConfig], in order. *)
Definition reset_events : list Event :=
  [SerialPrintln "Resetting all configuration..."; WiFiDisconnect true;
   DigitalWrite STATUS_LED HIGH; Delay 100; DigitalWrite STATUS_LED LOW; Delay 100;
   DigitalWrite STATUS_LED HIGH; Delay 100; DigitalWrite STATUS_LED LOW; Delay 100;
   DigitalWrite STATUS_LED HIGH; Delay 100; DigitalWrite STATUS_LED LOW; Delay 100;
   SerialPrintln "All configuration reset"].

(** The line is one of the four commands that carry a value. *)
Definition is_value_command (command : string) : bool :=
  WString.startsWith command "WIFI_SSID " || WString.startsWith command "WIFI_PASS "
  || WString.startsWith command "BASE_URL " || WString.startsWith command "API_KEY ".

(** The effects of one round of the polling loop of [connectToWifi], entered
    with the given value of [attempts], and of several rounds in a row. *)
Definition wait_round (attempts : Z) : list Event :=
  [Delay 500; SerialPrint "."; DigitalWrite STATUS_LED (Z.rem (attempts + 1) 2)].

Fixpoint wait_events (attempts : Z) (rounds : nat) : list Event :=
  match rounds with
  | O => []
  | S n => wait_round attempts ++ wait_events (attempts + 1) n
  end.

(** The effects of a call of [connectToWifi] that passes the guard, makes
    [rounds] rounds of the loop and then finds the link up or not. *)
Definition connect_events (env : WiFiEnv) (s : State) (rounds : nat) (up : bool)
  : list Event :=
  [SerialPrint "Connecting to WiFi: "; SerialPrintln (wifiSsid s);
   WiFiBegin (wifiSsid s) (wifiPass s)]
  ++ wait_events 0 rounds
  ++ (if up then
        [SerialPrintln (String NL "WiFi connected"); SerialPrint "IP address: ";
         SerialPrintln (localIP env); DigitalWrite STATUS_LED LOW]
      else [SerialPrintln (String NL "Failed to connect to WiFi")]).

(** How often a call of [connectToWifi] reads the link status: not at all
    when the guard sends it back, and otherwise once for every test of the
    loop condition and once more after the loop. *)
Definition status_reads (env : WiFiEnv) (s : State) : nat :=
  if (WString.length (wifiSsid s) =? 0) || (WString.length (wifiPass s) =? 0) then O
  else
    S (fst (fst (wifi_wait env 0 0
                   (emit (WiFiBegin (wifiSsid s) (wifiPass s))
                      (Serial_println (wifiSsid s)
                         (Serial_print "Connecting to WiFi: " s)))))).

(** The waits of the firmware, in order. *)
Definition delays (evs : list Event) : list Z :=
  omap (fun e => match e with Delay ms => Some ms | _ => None end) evs.

(** A store that holds the four given strings under the keys of the
    sketch. *)
Definition saved_store (ssid pass base key : string) (store : gmap string string)
  : gmap string string :=
  <["apiKey" := key]> (<["baseUrl" := base]>
    (<["wifiPass" := pass]> (<["wifiSsid" := ssid]> store))).

(** The reset action leaves its mark in the trace: it is the only place
    where the firmware tells the WiFi driver to disconnect. *)
Definition reset_performed (before after : State) : Prop :=
  In (WiFiDisconnect true) (new_events before after).

(** The two lines logged for a line that is not a command. *)
Definition unknown_events (command : string) : list Event :=
  [SerialPrintln ("Received command: " +:+ command);
   SerialPrintln ("Unknown command: " +:+ command)].

(** One write to the store: the C string of [value] under [key], if the
    store accepts it. *)
Definition write_entry (env : WiFiEnv) (key value : string)
    (store : gmap string string) : gmap string string :=
  if nvs_accepts env key (WString.c_str value)
  then <[key := WString.c_str value]> store else store.

(** The store after [saveConfig] has tried to write the four given strings
    on a platform that may refuse some of them. *)
Definition written_store (env : WiFiEnv) (ssid pass base key : string)
    (store : gmap string string) : gmap string string :=
  write_entry env "apiKey" key
    (write_entry env "baseUrl" base
       (write_entry env "wifiPass" pass
          (write_entry env "wifiSsid" ssid store))).

(** The state right after one of the four value commands was stored: the
    configuration now reads [ssid], [pass], [base], [key], the store was
    written with these four strings, and three lines were logged. *)
Definition after_value_command (env : WiFiEnv) (ssid pass base key : string)
    (command notice : string) (s : State) : State :=
  mkState (pressStartTime1 s) (pressStartTime2 s) (button1Pressed s)
    (button2Pressed s) ssid pass base key
    (written_store env ssid pass base key (preferences s)) (wifiConnected s)
    (trace s ++ [SerialPrintln ("Received command: " +:+ command);
                 SerialPrintln notice; SerialPrintln "Configuration saved"]).

(** The reconnection that follows a WIFI_SSID or WIFI_PASS command. *)
Definition reconnect_if_complete (env : WiFiEnv) (s : State) : State :=
  if (0 <? WString.length (wifiSsid s)) && (0 <? WString.length (wifiPass s))
  then connectToWifi env s else s.

(** ** The two input channels, seen alike *)

Inductive Channel : Type := Channel1 | Channel2.

Definition isDown (c : Channel) (s : State) : bool :=
  match c with Channel1 => button1Pressed s | Channel2 => button2Pressed s end.
Definition pressStart (c : Channel) (s : State) : Z :=
  match c with Channel1 => pressStartTime1 s | Channel2 => pressStartTime2 s end.
Definition set_isDown (c : Channel) (v : bool) (s : State) : State :=
  match c with Channel1 => set_button1Pressed v s | Channel2 => set_button2Pressed v s end.
Definition set_pressStart (c : Channel) (v : Z) (s : State) : State :=
  match c with Channel1 => set_pressStartTime1 v s | Channel2 => set_pressStartTime2 v s end.
Definition level (c : Channel) (p : ButtonPoll) : Z :=
  match c with Channel1 => button1State p | Channel2 => button2State p end.
Definition clock (c : Channel) (p : ButtonPoll) : Z :=
  match c with Channel1 => millis1 p | Channel2 => millis2 p end.
Definition reply_for (c : Channel) (p : ButtonPoll) : HttpReply :=
  match c with Channel1 => reply1 p | Channel2 => reply2 p end.
Definition activated_line (c : Channel) : string :=
  match c with Channel1 => "Button 1 pressed" | Channel2 => "Button 2 pressed" end.
Definition bound_path (c : Channel) : string :=
  match c with Channel1 => "/play" | Channel2 => "/pause" end.

(** The part of [checkButtonPressAndRelease] that deals with one channel. *)
Definition channel_step (c : Channel) (p : ButtonPoll) (s : State) : State :=
  let s :=
    if (level c p =? LOW) && negb (isDown c s) then
      set_isDown c true (set_pressStart c (clock c p) s)
    else s in
  if (level c p =? HIGH) && isDown c s then
    set_isDown c false
      (if MIN_PRESS_TIME <=? ulong_sub (clock c p) (pressStart c s) then
         makeApiCall (bound_path c) (reply_for c p)
           (Serial_println (activated_line c) s)
       else s)
  else s.

(** How many times a channel was reported as activated. *)
Definition activations (c : Channel) (evs : list Event) : nat :=
  count_occ Event_eq_dec evs (SerialPrintln (activated_line c)).

(** The last character of a string. *)
Fixpoint last_char (s : string) : option ascii :=
  match s with
  | EmptyString => None
  | String c EmptyString => Some c
  | String _ s' => last_char s'
  end.

(** [evs] is what happened from [s] to [s'], and what a dispatch looks at
    (connectivity flag, base address, credential) is the same in both. *)
Definition events_between (s s' : State) (evs : list Event) : Prop :=
  trace s' = trace s ++ evs
  /\ wifiConnected s' = wifiConnected s
  /\ baseUrl s' = baseUrl s
  /\ apiKey s' = apiKey s.

(** The effects of a release on channel [c] found at poll [p] in state [s]:
    the activation and its dispatch when the press was long enough. *)
Definition release_events (c : Channel) (p : ButtonPoll) (s : State) : list Event :=
  if MIN_PRESS_TIME <=? ulong_sub (clock c p) (pressStart c s) then
    SerialPrintln (activated_line c)
      :: dispatch_events (bound_path c) (reply_for c p) s
  else [].

(** ** The millisecond clock *)

(** What [millis()] returns [t] milliseconds after power-up: the count
    truncated to an [unsigned long]. *)
Definition millis_at (t : Z) : Z := t mod ULONG_MOD.

(** ** Sample inputs *)

(** The character with code zero. *)
Definition NUL : ascii := "000"%char.

(** A credential with a NUL in the middle, as a serial line can carry it. *)
Definition nul_key : string := String "a" (String NUL (String "b" EmptyString)).

(** A platform with the link up whose store refuses every write. *)
Definition store_full : WiFiEnv :=
  mkWiFiEnv (fun _ => WL_CONNECTED) "10.0.0.7" (fun _ _ => false).

(** A WiFi driver that reports the link up at its [k]-th answer only. *)
Definition link_only_at (k : nat) : WiFiEnv :=
  mkWiFiEnv (fun i => if (i =? k)%nat then WL_CONNECTED else WL_DISCONNECTED) "10.0.0.7"
    (fun _ _ => true).

(** A state with a configuration, a matching store and the link up. *)
Definition configured_state : State :=
  mkState 0 0 false false "home" "secret1" "http://10.0.0.5" "dXNlcjpwYXNz"
    (saved_store "home" "secret1" "http://10.0.0.5" "dXNlcjpwYXNz" ∅) true [].

(** The values of the globals at power-up, with an empty store. *)
Definition initial_state : State :=
  mkState 0 0 false false "" "" "" "" ∅ false [].

(** A WiFi driver that never gets a link, and one that has it at once. *)
Definition link_down : WiFiEnv :=
  mkWiFiEnv (fun _ => WL_DISCONNECTED) "0.0.0.0" (fun _ _ => true).
Definition link_up : WiFiEnv :=
  mkWiFiEnv (fun _ => WL_CONNECTED) "10.0.0.7" (fun _ _ => true).

(** The configured device after a power cycle, before [loadConfig]. *)
Definition rebooted_state : State :=
  mkState 0 0 false false "" "" "" "" (preferences (saveConfig link_up configured_state)) false [].

(** The configured device with an [https] base address. *)
Definition secure_state : State := set_baseUrl "https://api.example.com" configured_state.

(** A WiFi driver that reports the link up from its [k]-th answer on. *)
Definition link_after (k : nat) : WiFiEnv :=
  mkWiFiEnv (fun i => if (i <? k)%nat then WL_DISCONNECTED else WL_CONNECTED) "10.0.0.7"
    (fun _ _ => true).

Definition ok_reply : HttpReply := mkHttpReply 200 "ok".

(** A poll that finds the first button released and the second at the given
    level, [t] milliseconds after power-up. *)
Definition poll2 (level2 : Z) (t : Z) : ButtonPoll :=
  mkButtonPoll HIGH level2 (millis_at t) (millis_at t) ok_reply ok_reply.

(** A poll that finds the second button released and the first at the given
    level. *)
Definition poll1 (level1 : Z) (t : Z) : ButtonPoll :=
  mkButtonPoll level1 HIGH (millis_at t) (millis_at t) ok_reply ok_reply.

(** * Start-up, main loop and power cycle *)

(** The calls of [setup] that configure the hardware.  They have no place
    in [Event], so [setup] hands them back in a list of their own. *)
Inductive PinModeKind : Type := INPUT_PULLUP | OUTPUT.

Inductive InitCall : Type :=
| SerialBegin (baud : Z)
| PinMode (pin : Z) (mode : PinModeKind)
| PreferencesBegin (namespace : string) (readOnly : bool).

(** [setup()].  The first component lists the configuration calls in the
    order of the sketch: the serial port and the three pin modes come before
    the LED is switched off, [preferences.begin] right after it and before
    [loadConfig]. *)
Definition setup (env : WiFiEnv) (s : State) : list InitCall * State :=
  let init := [SerialBegin 115200;
               PinMode BUTTON1_PIN INPUT_PULLUP;
               PinMode BUTTON2_PIN INPUT_PULLUP;
               PinMode STATUS_LED OUTPUT] in
  let s := digitalWrite STATUS_LED LOW s in
  let init := init ++ [PreferencesBegin "esp32app" false] in
  let s := loadConfig s in
  let s :=
    if (0 <? WString.length (wifiSsid s)) && (0 <? WString.length (wifiPass s))
    then connectToWifi env s
    else s in
  let s := Serial_println "ESP32 Button Controller initialized" s in
  let s := Serial_println "Available commands:" s in
  let s := Serial_println "WIFI_SSID <wifi ssid>" s in
  let s := Serial_println "WIFI_PASS <wifi password>" s in
  let s := Serial_println "BASE_URL <api base url>" s in
  let s := Serial_println "API_KEY <basic auth base64 key>" s in
  let s := Serial_println "FLASH_RESET" s in
  (init, s).

(** [loop()]: [line] and [p] are what the serial port and the buttons
    offer during this pass, [now] is the value of [millis()] read for the
    blink of the status LED. *)
Definition loop (env : WiFiEnv) (line : option string) (p : ButtonPoll) (now : Z)
    (s : State) : State :=
  let s := checkSerialInput env line s in
  let s := checkButtonPressAndRelease p s in
  if negb (wifiConnected s) then
    digitalWrite STATUS_LED (if now mod 1000 <? 50 then HIGH else LOW) s
  else s.

(** Switching the device off and on: the globals take the values of their
    initialisers again, the store is kept, a new trace begins. *)
Definition power_cycle (s : State) : State :=
  mkState 0 0 false false "" "" "" "" (preferences s) false [].

(** What one pass of the main loop is fed with. *)
Record LoopInput : Type := mkLoopInput {
  loop_env : WiFiEnv;
  loop_line : option string;
  loop_poll : ButtonPoll;
  loop_now : Z
}.

(** Successive passes of the main loop. *)
Definition run_loop (inputs : list LoopInput) (s : State) : State :=
  foldl (fun s i => loop (loop_env i) (loop_line i) (loop_poll i) (loop_now i) s)
    s inputs.

(** ** Observations for the further properties *)

(** The configuration that [loadConfig] would read from a store. *)
Definition stored_config (store : gmap string string)
  : string * string * string * string :=
  (match store !! "wifiSsid" with Some v => v | None => "" end,
   match store !! "wifiPass" with Some v => v | None => "" end,
   match store !! "baseUrl" with Some v => v | None => "" end,
   match store !! "apiKey" with Some v => v | None => "" end).

(** A configuration as the store keeps it: each string up to its first
    NUL. *)
Definition cut_config (c : string * string * string * string)
  : string * string * string * string :=
  match c with
  | (ssid, pass, base, key) =>
      (WString.c_str ssid, WString.c_str pass, WString.c_str base, WString.c_str key)
  end.

(** The store holds the configuration that is in the variables, as C
    strings. *)
Definition synced (s : State) : Prop :=
  stored_config (preferences s) = cut_config (config s).

(** A platform whose store accepts every write. *)
Definition accepting (env : WiFiEnv) : Prop :=
  forall key value : string, nvs_accepts env key value = true.

(** The four keys of the store that the firmware uses. *)
Definition is_config_key (key : string) : bool :=
  bool_decide (key = "wifiSsid") || bool_decide (key = "wifiPass")
  || bool_decide (key = "baseUrl") || bool_decide (key = "apiKey").

(** The tracking of one channel: its down mark and its start time. *)
Definition tracking (c : Channel) (s : State) : bool * Z :=
  (isDown c s, pressStart c s).

(** What [loadConfig] logs, given the configuration it has read. *)
Definition load_log (ssid base key : string) : list Event :=
  [SerialPrintln "Loaded configuration:";
   SerialPrintln ("WIFI_SSID: " +:+ ssid);
   SerialPrintln ("BASE_URL: " +:+ base);
   SerialPrint "API_KEY: ";
   SerialPrintln (if 0 <? WString.length key then "[SET]" else "[NOT SET]")].

(** The lines that close [setup]. *)
Definition help_lines : list Event :=
  [SerialPrintln "ESP32 Button Controller initialized";
   SerialPrintln "Available commands:";
   SerialPrintln "WIFI_SSID <wifi ssid>";
   SerialPrintln "WIFI_PASS <wifi password>";
   SerialPrintln "BASE_URL <api base url>";
   SerialPrintln "API_KEY <basic auth base64 key>";
   SerialPrintln "FLASH_RESET"].

(** What a poll does to the tracking of a channel, given the level and the
    clock it reads for that channel, and whether it reports an activation. *)
Definition track_step (lvl clk : Z) (t : bool * Z) : bool * Z :=
  if (lvl =? LOW) && negb (fst t) then (true, clk)
  else if (lvl =? HIGH) && fst t then (false, snd t)
  else t.

Definition fires (lvl clk : Z) (t : bool * Z) : bool :=
  (lvl =? HIGH) && fst t && (MIN_PRESS_TIME <=? ulong_sub clk (snd t)).

(** What a list of polls offers to one channel. *)
Definition channel_inputs (c : Channel) (ps : list ButtonPoll) : list (Z * Z) :=
  map (fun p => (level c p, clock c p)) ps.

(** The device cannot send a request: [makeApiCall] would fail fast. *)
Definition offline (s : State) : Prop :=
  wifiConnected s = false \/ baseUrl s = "".

(** While the device is connected the status LED rests off. *)
Definition led_ok (s : State) : Prop :=
  wifiConnected s = true -> indicator (trace s) = Some LOW.

(** A step from [s] to [s'] that keeps [led_ok]: if it ends connected, it
    either wrote the LED last to off, or began connected and left the LED
    alone. *)
Definition led_step (s s' : State) : Prop :=
  exists evs : list Event,
    trace s' = trace s ++ evs
    /\ (wifiConnected s' = true ->
        last (led_writes evs) = Some LOW
        \/ (wifiConnected s = true /\ led_writes evs = [])).

(** ** Further sample inputs *)

(** A pass of the loop in which the network name arrives and no button is
    touched. *)
Definition ssid_pass_input : LoopInput :=
  mkLoopInput link_up (Some "WIFI_SSID home") (poll2 HIGH 0) 0.

(** A store with the same network name and base address as
    [configured_state], another secret and another credential. *)
Definition other_secrets_state : State :=
  mkState 0 0 false false "" "" "" ""
    (saved_store "home" "hunter2" "http://10.0.0.5" "Zm9vOmJhcg==" ∅) false [].

(** Polls that offer the first button the same as [poll1] does, with the
    second button held down. *)
Definition poll1_both (level1 : Z) (t : Z) : ButtonPoll :=
  mkButtonPoll level1 LOW (millis_at t) 7 (mkHttpReply (-1) "") ok_reply.

(** What [loadConfig] finds under [key] after [value] was written over
    [store]: the C string of the value if the store took it, what was there
    before if it did not. *)
Definition field_after_write (env : WiFiEnv) (key value : string)
    (store : gmap string string) : string :=
  if nvs_accepts env key (WString.c_str value) then WString.c_str value
  else match store !! key with Some v => v | None => "" end.

(** * Properties *)

(** ** Observations on states and traces *)

(** Two states with the same fields are equal. *)
Lemma state_ext (s1 s2 : State) :
  pressStartTime1 s1 = pressStartTime1 s2 ->
  pressStartTime2 s1 = pressStartTime2 s2 ->
  button1Pressed s1 = button1Pressed s2 ->
  button2Pressed s1 = button2Pressed s2 ->
  wifiSsid s1 = wifiSsid s2 ->
  wifiPass s1 = wifiPass s2 ->
  baseUrl s1 = baseUrl s2 ->
  apiKey s1 = apiKey s2 ->
  preferences s1 = preferences s2 ->
  wifiConnected s1 = wifiConnected s2 ->
  trace s1 = trace s2 ->
  s1 = s2.
Proof. destruct s1, s2; simpl; intros; subst; reflexivity. Qed.

(** Reduces the accessors applied to the states that the primitives and the
    setters build, field by field, and nothing else. *)
Ltac state_simpl :=
  cbn [pressStartTime1 pressStartTime2 button1Pressed button2Pressed
       wifiSsid wifiPass baseUrl apiKey preferences wifiConnected trace
       set_pressStartTime1 set_pressStartTime2 set_button1Pressed
       set_button2Pressed set_wifiSsid set_wifiPass set_baseUrl set_apiKey
       set_preferences set_wifiConnected emit emit_all
       Serial_print Serial_println Serial_println_int digitalWrite delay
       preferences_clear blink_loop after_value_command
       isDown pressStart set_isDown set_pressStart] in *.

(** Proves an equation between states field by field. *)
Ltac state_eq :=
  apply state_ext; state_simpl; rewrite <- ?app_assoc; try reflexivity.

Lemma emit_all_nil s : emit_all [] s = s.
Proof. destruct s; unfold emit_all; simpl. by rewrite app_nil_r. Qed.

Lemma emit_emit_all e s : emit e s = emit_all [e] s.
Proof. reflexivity. Qed.

Lemma emit_all_app evs1 evs2 s :
  emit_all evs2 (emit_all evs1 s) = emit_all (evs1 ++ evs2) s.
Proof. unfold emit_all; simpl. by rewrite app_assoc. Qed.

Lemma new_events_emit_all evs s : new_events s (emit_all evs s) = evs.
Proof. unfold new_events; simpl. by rewrite drop_app_length. Qed.

Lemma length_zero_iff_empty (x : string) : WString.length x = 0 <-> x = "".
Proof.
  unfold WString.length. destruct x; simpl; split; intros H; try done; lia.
Qed.

Lemma length_eqb_zero (x : string) :
  (WString.length x =? 0) = bool_decide (x = "").
Proof.
  case_bool_decide as H.
  - apply Z.eqb_eq. by apply length_zero_iff_empty.
  - apply Z.eqb_neq. by rewrite length_zero_iff_empty.
Qed.

Lemma length_pos_ltb (x : string) :
  (0 <? WString.length x) = negb (bool_decide (x = "")).
Proof.
  case_bool_decide as H; simpl.
  - subst. reflexivity.
  - apply Z.ltb_lt. destruct x; [done|]. unfold WString.length. simpl. lia.
Qed.

(** ** Configuration store *)

Lemma loadConfig_fields s :
  config (loadConfig s) =
    (preferences_getString "wifiSsid" "" s, preferences_getString "wifiPass" "" s,
     preferences_getString "baseUrl" "" s, preferences_getString "apiKey" "" s).
Proof. reflexivity. Qed.

Lemma preferences_putString_state (env : WiFiEnv) (key value : string) (s : State) :
  preferences_putString env key value s
  = set_preferences (write_entry env key value (preferences s)) s.
Proof.
  unfold preferences_putString, write_entry.
  destruct (nvs_accepts env key (WString.c_str value)); [reflexivity|].
  by destruct s.
Qed.

Lemma saveConfig_state (env : WiFiEnv) (s : State) :
  saveConfig env s
  = mkState (pressStartTime1 s) (pressStartTime2 s) (button1Pressed s)
      (button2Pressed s) (wifiSsid s) (wifiPass s) (baseUrl s) (apiKey s)
      (written_store env (wifiSsid s) (wifiPass s) (baseUrl s) (apiKey s)
         (preferences s))
      (wifiConnected s) (trace s ++ [SerialPrintln "Configuration saved"]).
Proof.
  unfold saveConfig. cbv zeta. rewrite !preferences_putString_state.
  unfold written_store. state_eq.
Qed.

Lemma saveConfig_preferences (env : WiFiEnv) (s : State) :
  preferences (saveConfig env s)
  = written_store env (wifiSsid s) (wifiPass s) (baseUrl s) (apiKey s) (preferences s).
Proof. by rewrite saveConfig_state. Qed.

Lemma stored_config_written (env : WiFiEnv) (ssid pass base key : string)
    (store : gmap string string) :
  stored_config (written_store env ssid pass base key store)
  = (field_after_write env "wifiSsid" ssid store,
     field_after_write env "wifiPass" pass store,
     field_after_write env "baseUrl" base store,
     field_after_write env "apiKey" key store).
Proof.
  unfold stored_config, written_store, write_entry, field_after_write.
  destruct (nvs_accepts env "wifiSsid" (WString.c_str ssid));
    destruct (nvs_accepts env "wifiPass" (WString.c_str pass));
    destruct (nvs_accepts env "baseUrl" (WString.c_str base));
    destruct (nvs_accepts env "apiKey" (WString.c_str key));
    by simplify_map_eq.
Qed.

Lemma stored_config_accepted (env : WiFiEnv) (ssid pass base key : string)
    (store : gmap string string) :
  accepting env ->
  stored_config (written_store env ssid pass base key store)
  = cut_config (ssid, pass, base, key).
Proof.
  intros Haccept. rewrite stored_config_written. unfold field_after_write.
  by rewrite !Haccept.
Qed.

(** C3 as the firmware has it.  The store keeps C strings and may refuse a
    write, and [saveConfig] does not look at the outcome.  Loading after
    saving yields, for each field, the saved string up to its first NUL if the
    store took it, and what the store held before if it did not.  So when the
    store accepts the four writes the strings come back cut at their first
    NUL, and unchanged when they contain none, whatever the variables held in
    between (power cycle).  Loading never fails and yields the empty string
    for every key that is absent from the store. *)
Theorem saveConfig_loadConfig_roundtrip (env : WiFiEnv) (s s' : State)
    (Hstore : preferences s' = preferences (saveConfig env s)) :
  config (loadConfig s')
  = (field_after_write env "wifiSsid" (wifiSsid s) (preferences s),
     field_after_write env "wifiPass" (wifiPass s) (preferences s),
     field_after_write env "baseUrl" (baseUrl s) (preferences s),
     field_after_write env "apiKey" (apiKey s) (preferences s))
  /\ (accepting env -> config (loadConfig s') = cut_config (config s))
  /\ (accepting env -> cut_config (config s) = config s ->
      config (loadConfig s') = config s
      /\ config (loadConfig (saveConfig env s)) = config s)
  /\ (forall t : State,
        (preferences t !! "wifiSsid" = None -> wifiSsid (loadConfig t) = "")
        /\ (preferences t !! "wifiPass" = None -> wifiPass (loadConfig t) = "")
        /\ (preferences t !! "baseUrl" = None -> baseUrl (loadConfig t) = "")
        /\ (preferences t !! "apiKey" = None -> apiKey (loadConfig t) = "")).
Proof.
  assert (Hload : forall u, preferences u = preferences (saveConfig env s) ->
            config (loadConfig u)
            = stored_config (written_store env (wifiSsid s) (wifiPass s) (baseUrl s)
                               (apiKey s) (preferences s))).
  { intros u Hu. rewrite <- saveConfig_preferences, <- Hu. reflexivity. }
  split_and!.
  - rewrite (Hload s' Hstore). apply stored_config_written.
  - intros Haccept. rewrite (Hload s' Hstore). by apply stored_config_accepted.
  - intros Haccept Hclean. rewrite (Hload s' Hstore), (Hload _ eq_refl).
    rewrite (stored_config_accepted _ _ _ _ _ _ Haccept). by split.
  - intros t. split_and!; intros Hnone.
    + change (preferences_getString "wifiSsid" "" t = "").
      unfold preferences_getString. by rewrite Hnone.
    + change (preferences_getString "wifiPass" "" t = "").
      unfold preferences_getString. by rewrite Hnone.
    + change (preferences_getString "baseUrl" "" t = "").
      unfold preferences_getString. by rewrite Hnone.
    + change (preferences_getString "apiKey" "" t = "").
      unfold preferences_getString. by rewrite Hnone.
Qed.

(** ** Connectivity: the guard of [connectToWifi] *)

Lemma connectToWifi_without_guard (env : WiFiEnv) (s : State) :
  wifiSsid s = "" \/ wifiPass s = "" ->
  connectToWifi env s = emit_all [SerialPrintln "WiFi credentials not set"] s.
Proof.
  intros Hmissing. unfold connectToWifi. rewrite !length_eqb_zero.
  destruct Hmissing as [-> | ->].
  - reflexivity.
  - by rewrite orb_true_r.
Qed.

(** C7.  With an empty network name or an empty network secret,
    [connectToWifi] only reports the missing credentials: the state after
    the call is the state before it with that one line added to the log, so
    the connectivity flag keeps its value, nothing is handed to the WiFi
    driver, no delay is made, and the answer does not depend on the driver
    (it is never asked for the link status). *)
Theorem connectToWifi_without_credentials (env : WiFiEnv) (s : State)
    (Hmissing : wifiSsid s = "" \/ wifiPass s = "") :
  connectToWifi env s = Serial_println "WiFi credentials not set" s
  /\ wifiConnected (connectToWifi env s) = wifiConnected s
  /\ config (connectToWifi env s) = config s
  /\ preferences (connectToWifi env s) = preferences s
  /\ new_events s (connectToWifi env s) = [SerialPrintln "WiFi credentials not set"]
  /\ (forall env' : WiFiEnv, connectToWifi env' s = connectToWifi env s).
Proof.
  assert (Hguard : forall e, connectToWifi e s
                             = Serial_println "WiFi credentials not set" s).
  { intros e. by rewrite (connectToWifi_without_guard e s Hmissing). }
  rewrite !Hguard. repeat split.
  - apply (new_events_emit_all [SerialPrintln "WiFi credentials not set"]).
  - intros env'. by rewrite Hguard.
Qed.

(** ** Request dispatch *)

Lemma makeApiCall_fails_guard (endpoint : string) (reply : HttpReply) (s : State) :
  wifiConnected s = false \/ baseUrl s = "" ->
  makeApiCall endpoint reply s
    = emit_all [SerialPrintln "Cannot make API call: WiFi not connected or Base URL not set"] s.
Proof.
  intros Hguard. unfold makeApiCall. rewrite length_eqb_zero.
  destruct Hguard as [-> | ->]; [reflexivity|].
  by rewrite orb_true_r.
Qed.

(** C2.  When the connectivity flag is off or the base address is empty,
    [makeApiCall] logs the reason and returns: the state afterwards is the
    state before with that line added to the log.  No effect of the call
    touches the network, the configuration, the store and the connectivity
    flag are unchanged, and the status LED keeps the level last written. *)
Theorem makeApiCall_fails_fast (endpoint : string) (reply : HttpReply) (s : State)
    (Hguard : wifiConnected s = false \/ baseUrl s = "") :
  makeApiCall endpoint reply s
    = Serial_println "Cannot make API call: WiFi not connected or Base URL not set" s
  /\ dispatch_events endpoint reply s
     = [SerialPrintln "Cannot make API call: WiFi not connected or Base URL not set"]
  /\ Forall (fun e => is_network_event e = false) (dispatch_events endpoint reply s)
  /\ config (makeApiCall endpoint reply s) = config s
  /\ preferences (makeApiCall endpoint reply s) = preferences s
  /\ wifiConnected (makeApiCall endpoint reply s) = wifiConnected s
  /\ indicator (trace (makeApiCall endpoint reply s)) = indicator (trace s).
Proof.
  assert (Hcall : makeApiCall endpoint reply s
    = Serial_println "Cannot make API call: WiFi not connected or Base URL not set" s).
  { by rewrite (makeApiCall_fails_guard endpoint reply s Hguard). }
  unfold dispatch_events. rewrite !Hcall.
  change (Serial_println ?m s) with (emit_all [SerialPrintln m] s).
  rewrite new_events_emit_all. repeat split.
  - by repeat constructor.
  - unfold indicator, led_writes; simpl. rewrite omap_app; simpl. by rewrite app_nil_r.
Qed.

Lemma makeApiCall_request (endpoint : string) (reply : HttpReply) (s : State) :
  wifiConnected s = true -> baseUrl s <> "" ->
  makeApiCall endpoint reply s = emit_all (request_events endpoint reply s) s.
Proof.
  intros Hconn Hbase. unfold makeApiCall, request_events, auth_header, reply_log.
  rewrite length_eqb_zero, Hconn, (bool_decide_eq_false_2 _ Hbase).
  cbn [negb orb]. cbv zeta. state_simpl. rewrite length_pos_ltb.
  destruct (WString.startsWith (baseUrl s +:+ endpoint) "https://");
    destruct (bool_decide (apiKey s = ""));
    destruct (0 <? httpResponseCode reply);
    cbn [negb]; state_eq.
Qed.

Lemma makeApiCall_emits (endpoint : string) (reply : HttpReply) (s : State) :
  makeApiCall endpoint reply s = emit_all (dispatch_events endpoint reply s) s.
Proof.
  unfold dispatch_events.
  destruct (wifiConnected s) eqn:Hconn.
  - destruct (decide (baseUrl s = "")) as [Hbase | Hbase].
    + rewrite (makeApiCall_fails_guard endpoint reply s); [|by right].
      by rewrite new_events_emit_all.
    + rewrite (makeApiCall_request _ _ _ Hconn Hbase).
      by rewrite new_events_emit_all.
  - rewrite (makeApiCall_fails_guard endpoint reply s); [|by left].
    by rewrite new_events_emit_all.
Qed.

Lemma dispatch_events_request (endpoint : string) (reply : HttpReply) (s : State) :
  wifiConnected s = true -> baseUrl s <> "" ->
  dispatch_events endpoint reply s = request_events endpoint reply s.
Proof.
  intros Hconn Hbase. unfold dispatch_events.
  rewrite (makeApiCall_request _ _ _ Hconn Hbase). apply new_events_emit_all.
Qed.

Lemma request_events_filter (endpoint : string) (reply : HttpReply) (s : State) :
  filter (fun e => is_request_event e = true) (request_events endpoint reply s)
  = HttpBegin (WString.startsWith (baseUrl s +:+ endpoint) "https://")
      (baseUrl s +:+ endpoint)
      :: auth_header s ++ [HttpGET; HttpEnd].
Proof.
  unfold request_events, auth_header, reply_log.
  destruct (WString.startsWith (baseUrl s +:+ endpoint) "https://");
    destruct (bool_decide (apiKey s = ""));
    destruct (0 <? httpResponseCode reply); reflexivity.
Qed.

Lemma request_events_headers (endpoint : string) (reply : HttpReply) (s : State)
    (name value : string) :
  In (HttpAddHeader name value) (request_events endpoint reply s)
  <-> In (HttpAddHeader name value) (auth_header s).
Proof.
  rewrite <- !list_elem_of_In.
  transitivity (HttpAddHeader name value
                  ∈ filter (fun e => is_request_event e = true)
                      (request_events endpoint reply s)).
  - rewrite list_elem_of_filter. simpl. tauto.
  - rewrite request_events_filter, elem_of_cons, elem_of_app, !elem_of_cons,
      elem_of_nil. split; [|tauto].
    intros [Hin | [Hin | [Hin | [Hin | []]]]]; done.
Qed.

Lemma auth_header_in (s : State) (name value : string) :
  In (HttpAddHeader name value) (auth_header s)
  <-> name = "Authorization" /\ value = "Basic " +:+ apiKey s /\ apiKey s <> "".
Proof.
  unfold auth_header. case_bool_decide as Hkey; simpl.
  - split; [done | tauto].
  - split.
    + intros [Hin | []]. by injection Hin as <- <-.
    + intros (-> & -> & _). by left.
Qed.

(** C6.  A request that is really sent (the guard of [makeApiCall] passes)
    carries the header [Authorization: Basic <apiKey>], with the stored key
    appended as it is, exactly when the key is not empty, and never any other
    header.  The transport is chosen by the [https://] prefix of the URL and
    the statement holds for either choice: the request is [begin], the
    optional header, [GET], [end], on the plain and on the secure client. *)
Theorem authorization_header_iff_credential
    (endpoint : string) (reply : HttpReply) (s : State)
    (Hconn : wifiConnected s = true) (Hbase : baseUrl s <> "") :
  let evs := dispatch_events endpoint reply s in
  let url := baseUrl s +:+ endpoint in
  (In (HttpAddHeader "Authorization" ("Basic " +:+ apiKey s)) evs <-> apiKey s <> "")
  /\ (forall name value, In (HttpAddHeader name value) evs ->
        name = "Authorization" /\ value = "Basic " +:+ apiKey s /\ apiKey s <> "")
  /\ (forall secure, WString.startsWith url "https://" = secure ->
        filter (fun e => is_request_event e = true) evs
        = HttpBegin secure url
            :: (if bool_decide (apiKey s = "") then []
                else [HttpAddHeader "Authorization" ("Basic " +:+ apiKey s)])
            ++ [HttpGET; HttpEnd]).
Proof.
  intros evs url. subst evs url.
  rewrite (dispatch_events_request _ _ _ Hconn Hbase). split_and!.
  - rewrite request_events_headers, auth_header_in. tauto.
  - intros name value Hin. apply request_events_headers in Hin. by apply auth_header_in in Hin.
  - intros secure <-. apply request_events_filter.
Qed.

(** ** Facts about the string operations *)

Lemma startsWith_split (p s : string) :
  WString.startsWith s p = true ->
  s = p +:+ WString.substring (String.length p) s.
Proof.
  unfold WString.startsWith. revert s.
  induction p as [|c p IH]; intros s Hpre; [by destruct s|].
  destruct s as [|d s]; simpl in Hpre; [done|].
  destruct (ascii_dec c d) as [<- | _]; [|done].
  change (String c p +:+ ?r) with (String c (p +:+ r)).
  f_equal. by apply IH.
Qed.

Lemma startsWith_app (p rest : string) : WString.startsWith (p +:+ rest) p = true.
Proof.
  unfold WString.startsWith. induction p as [|c p IH]; simpl.
  - by destruct rest.
  - change (String c p +:+ rest) with (String c (p +:+ rest)).
    simpl. by destruct (ascii_dec c c).
Qed.

Lemma substring_app (p rest : string) :
  WString.substring (String.length p) (p +:+ rest) = rest.
Proof. induction p as [|c p IH]; simpl; [by destruct rest | exact IH]. Qed.

(** ** Command interpreter *)

Lemma resetConfig_state (s : State) :
  resetConfig s
  = mkState (pressStartTime1 s) (pressStartTime2 s) (button1Pressed s)
      (button2Pressed s) "" "" "" "" ∅ false (trace s ++ reset_events).
Proof.
  unfold resetConfig, reset_events. cbv zeta. state_eq.
Qed.

Lemma c_str_is_prefix (s : string) : WString.startsWith s (WString.c_str s) = true.
Proof.
  unfold WString.startsWith. induction s as [|c s IH]; [reflexivity|].
  cbn [WString.c_str]. destruct (Ascii.eqb c "000"); [reflexivity|].
  cbn [String.prefix]. by destruct (ascii_dec c c).
Qed.

Lemma c_str_idemp (s : string) : WString.c_str (WString.c_str s) = WString.c_str s.
Proof.
  induction s as [|c s IH]; [reflexivity|].
  cbn [WString.c_str]. destruct (Ascii.eqb c "000") eqn:Hc; [reflexivity|].
  cbn [WString.c_str]. by rewrite Hc, IH.
Qed.

Lemma reset_prefix_not_value (command : string) :
  WString.startsWith command "FLASH_RESET" = true ->
  is_value_command command = false.
Proof.
  intros Hpre. apply startsWith_split in Hpre. rewrite Hpre. reflexivity.
Qed.

Lemma reset_word_not_value (command : string) :
  WString.c_str command = "FLASH_RESET" -> is_value_command command = false.
Proof.
  intros Hcmd. apply reset_prefix_not_value. rewrite <- Hcmd. apply c_str_is_prefix.
Qed.

Lemma checkSerialInput_reset_word (env : WiFiEnv) (raw : string) (s : State) :
  WString.c_str (WString.trim raw) = "FLASH_RESET" ->
  checkSerialInput env (Some raw) s
  = resetConfig (Serial_println ("Received command: " +:+ WString.trim raw) s).
Proof.
  intros Hcmd. pose proof (reset_word_not_value _ Hcmd) as Hnone.
  unfold is_value_command in Hnone.
  apply orb_false_elim in Hnone as [Hnone Hkey].
  apply orb_false_elim in Hnone as [Hnone Hurl].
  apply orb_false_elim in Hnone as [Hssid Hpass].
  unfold checkSerialInput, WString.equals. cbv zeta.
  rewrite Hssid, Hpass, Hurl, Hkey, Hcmd. reflexivity.
Qed.

Lemma checkSerialInput_reset (env : WiFiEnv) (raw : string) (s : State) :
  WString.trim raw = "FLASH_RESET" ->
  checkSerialInput env (Some raw) s
  = resetConfig (Serial_println "Received command: FLASH_RESET" s).
Proof.
  intros Hcmd. rewrite checkSerialInput_reset_word by (by rewrite Hcmd).
  by rewrite Hcmd.
Qed.

Lemma checkSerialInput_unknown (env : WiFiEnv) (raw : string) (s : State) :
  is_value_command (WString.trim raw) = false ->
  WString.c_str (WString.trim raw) <> "FLASH_RESET" ->
  checkSerialInput env (Some raw) s
  = emit_all (unknown_events (WString.trim raw)) s.
Proof.
  unfold is_value_command. intros Hnone Hneq.
  apply orb_false_elim in Hnone as [Hnone Hkey].
  apply orb_false_elim in Hnone as [Hnone Hurl].
  apply orb_false_elim in Hnone as [Hssid Hpass].
  unfold checkSerialInput, WString.equals. cbv zeta.
  rewrite Hssid, Hpass, Hurl, Hkey.
  change (WString.c_str "FLASH_RESET") with "FLASH_RESET".
  rewrite (bool_decide_eq_false_2 _ Hneq). cbn [orb andb].
  unfold Serial_println, unknown_events. rewrite !emit_emit_all, emit_all_app. reflexivity.
Qed.

(** ** Connectivity: the polling loop *)

Lemma wifi_wait_loop_eq (env : WiFiEnv) (reads : nat) (attempts : Z) (s : State) :
  wifi_wait env reads attempts s
  = if negb (status env reads =? WL_CONNECTED) && (attempts <? 20) then
      wifi_wait env (S reads) (attempts + 1)
        (digitalWrite STATUS_LED (Z.rem (attempts + 1) 2)
           (Serial_print "." (delay 500 s)))
    else (S reads, attempts, s).
Proof.
  rewrite wifi_wait_equation_1.
  destruct (inspect _) as [[|] Hcond]; simpl; by rewrite Hcond.
Qed.

Lemma wifi_wait_rounds (env : WiFiEnv) (budget : nat) :
  forall (reads : nat) (attempts : Z) (s : State),
    Z.to_nat (20 - attempts) = budget ->
    exists rounds : nat,
      wifi_wait env reads attempts s
      = (S (reads + rounds), attempts + Z.of_nat rounds,
         emit_all (wait_events attempts rounds) s)
      /\ (rounds <= budget)%nat
      /\ (forall i : nat, (i < rounds)%nat -> status env (reads + i) <> WL_CONNECTED)
      /\ (status env (reads + rounds) = WL_CONNECTED \/ rounds = budget).
Proof.
  induction budget as [|budget IH]; intros reads attempts s Hbudget.
  - exists O. rewrite wifi_wait_loop_eq.
    replace (attempts <? 20) with false by (symmetry; apply Z.ltb_ge; lia).
    rewrite andb_false_r, Nat.add_0_r, Z.add_0_r, emit_all_nil.
    split_and!; [done | lia | intros i Hi; lia | by right].
  - rewrite wifi_wait_loop_eq.
    replace (attempts <? 20) with true by (symmetry; apply Z.ltb_lt; lia).
    rewrite andb_true_r.
    destruct (status env reads =? WL_CONNECTED) eqn:Hst; simpl.
    + exists O. rewrite Nat.add_0_r, Z.add_0_r, emit_all_nil.
      split_and!; [done | lia | intros i Hi; lia | left; by apply Z.eqb_eq].
    + destruct (IH (S reads) (attempts + 1)
                  (digitalWrite STATUS_LED (Z.rem (attempts + 1) 2)
                     (Serial_print "." (delay 500 s)))) as (rounds & Heq & Hle & Hno & Hend);
        [lia|].
      exists (S rounds). rewrite Heq. split_and!.
      * f_equal; [f_equal; [f_equal; lia | lia]|].
        unfold digitalWrite, Serial_print, delay. rewrite !emit_emit_all, !emit_all_app.
        reflexivity.
      * lia.
      * intros [|i] Hi.
        -- rewrite Nat.add_0_r. by apply Z.eqb_neq.
        -- replace (reads + S i)%nat with (S reads + i)%nat by lia. apply Hno. lia.
      * replace (reads + S rounds)%nat with (S reads + rounds)%nat by lia.
        destruct Hend as [Hend | Hend]; [by left | right; lia].
Qed.

Lemma connectToWifi_attempt (env : WiFiEnv) (s : State) :
  wifiSsid s <> "" -> wifiPass s <> "" ->
  exists rounds : nat,
    (rounds <= 20)%nat
    /\ (forall i : nat, (i < rounds)%nat -> status env i <> WL_CONNECTED)
    /\ (status env rounds = WL_CONNECTED \/ rounds = 20%nat)
    /\ status_reads env s = (rounds + 2)%nat
    /\ connectToWifi env s
       = set_wifiConnected (status env (S rounds) =? WL_CONNECTED)
           (emit_all (connect_events env s rounds
                        (status env (S rounds) =? WL_CONNECTED)) s).
Proof.
  intros Hssid Hpass. unfold connectToWifi, status_reads.
  rewrite !length_eqb_zero, !bool_decide_eq_false_2 by done.
  cbn [orb]. cbv zeta. state_simpl.
  match goal with |- context [wifi_wait env 0 0 ?s1] =>
    destruct (wifi_wait_rounds env 20 0 0 s1) as (rounds & Heq & Hle & Hno & Hend);
      [done|]
  end.
  rewrite Nat.add_0_l in Heq. setoid_rewrite Nat.add_0_l in Hno.
  rewrite Nat.add_0_l in Hend.
  exists rounds. split_and!; [done | done | done | |].
  - rewrite Heq. cbn [fst]. lia.
  - rewrite Heq. cbv beta iota. unfold connect_events.
    destruct (status env (S rounds) =? WL_CONNECTED); state_eq.
Qed.

Lemma delays_app evs1 evs2 : delays (evs1 ++ evs2) = delays evs1 ++ delays evs2.
Proof. apply omap_app. Qed.

Lemma delays_wait_events (attempts : Z) (rounds : nat) :
  delays (wait_events attempts rounds) = replicate rounds 500.
Proof.
  revert attempts. induction rounds as [|n IH]; intros attempts; [done|].
  simpl. f_equal. apply IH.
Qed.

(** C8 as the firmware has it.  A call of [connectToWifi] with both
    credentials set always returns.  It makes at most 20 waits of 500 ms;
    the link status is read once before the first wait, once after each wait
    and once more after the loop, that is two times more than there are
    waits and at most 22 times.  No read before the last one of the loop
    finds the link up, and the loop is left as soon as a read finds the link
    up or when the 20 waits are used.  The connectivity flag ends as the one
    read made after the loop says, whatever the reads of the loop found.
    Hence: when no read at all finds the link up, the 20 waits are made and
    the flag ends off; when the read after [k] waits ([k] at most 20) is the
    first to find the link up and the read after the loop finds it up as
    well, exactly [k] waits are made and the flag ends on; when the read
    after the loop finds the link down the flag ends off, also if the loop
    was left on a link that was up; when the 20 waits are used and the read
    after the loop finds the link up, the flag ends on. *)
Theorem connectToWifi_bounded (env : WiFiEnv) (s : State)
    (Hssid : wifiSsid s <> "") (Hpass : wifiPass s <> "") :
  exists rounds : nat,
    (rounds <= 20)%nat
    /\ delays (new_events s (connectToWifi env s)) = replicate rounds 500
    /\ status_reads env s = (rounds + 2)%nat
    /\ (status_reads env s <= 22)%nat
    /\ (forall i : nat, (i < rounds)%nat -> status env i <> WL_CONNECTED)
    /\ (status env rounds = WL_CONNECTED \/ rounds = 20%nat)
    /\ wifiConnected (connectToWifi env s)
       = bool_decide (status env (S rounds) = WL_CONNECTED)
    /\ ((forall i : nat, (i <= 21)%nat -> status env i <> WL_CONNECTED) ->
        rounds = 20%nat /\ wifiConnected (connectToWifi env s) = false)
    /\ (forall k : nat,
          (k <= 20)%nat ->
          (forall i : nat, (i < k)%nat -> status env i <> WL_CONNECTED) ->
          status env k = WL_CONNECTED -> status env (S k) = WL_CONNECTED ->
          rounds = k /\ wifiConnected (connectToWifi env s) = true)
    /\ (status env (S rounds) <> WL_CONNECTED ->
        wifiConnected (connectToWifi env s) = false)
    /\ (rounds = 20%nat -> status env 21 = WL_CONNECTED ->
        wifiConnected (connectToWifi env s) = true).
Proof.
  destruct (connectToWifi_attempt env s Hssid Hpass)
    as (rounds & Hle & Hno & Hend & Hreads & Heq).
  assert (Hflag : wifiConnected (connectToWifi env s)
                  = bool_decide (status env (S rounds) = WL_CONNECTED)).
  { rewrite Heq. simpl. case_bool_decide as Hst.
    - by apply Z.eqb_eq.
    - by apply Z.eqb_neq. }
  exists rounds. split_and!; try done.
  - rewrite Heq.
    change (new_events s (set_wifiConnected ?b (emit_all ?evs s))) with
      (new_events s (emit_all evs s)).
    rewrite new_events_emit_all. unfold connect_events.
    rewrite !delays_app, delays_wait_events. simpl.
    destruct (status env (S rounds) =? WL_CONNECTED); simpl; by rewrite app_nil_r.
  - rewrite Hreads. lia.
  - intros Hnever. assert (rounds = 20%nat) as Hrounds.
    { destruct Hend as [Hup | Hend]; [|done]. exfalso. apply (Hnever rounds); [lia|done]. }
    split; [done|]. rewrite Hflag. apply bool_decide_eq_false_2.
    apply Hnever. lia.
  - intros k Hk Hfirst Hup Hstay.
    assert (rounds = k) as Hrounds.
    { destruct (Nat.lt_trichotomy rounds k) as [Hlt | [Heqk | Hgt]]; [|done|].
      - exfalso. destruct Hend as [Hend | Hend]; [by apply (Hfirst rounds)|lia].
      - exfalso. by apply (Hno k). }
    split; [done|]. rewrite Hflag, Hrounds. by apply bool_decide_eq_true_2.
  - intros Hdown. rewrite Hflag. by apply bool_decide_eq_false_2.
  - intros Hrounds Hup. rewrite Hflag, Hrounds. by apply bool_decide_eq_true_2.
Qed.

(** ** Command interpreter: FLASH_RESET and unrecognised lines *)

Lemma new_events_trace (s s' : State) (evs : list Event) :
  trace s' = trace s ++ evs -> new_events s s' = evs.
Proof. intros Htr. unfold new_events. rewrite Htr. apply drop_app_length. Qed.

Lemma flash_reset_events (env : WiFiEnv) (raw : string) (s : State) :
  WString.trim raw = "FLASH_RESET" ->
  new_events s (checkSerialInput env (Some raw) s)
  = SerialPrintln "Received command: FLASH_RESET" :: reset_events.
Proof.
  intros Hcmd. rewrite (checkSerialInput_reset env raw s Hcmd), resetConfig_state.
  apply new_events_trace. simpl. by rewrite <- app_assoc.
Qed.

Lemma flash_reset_marks (env : WiFiEnv) (raw : string) (s : State) :
  WString.trim raw = "FLASH_RESET" ->
  reset_performed s (checkSerialInput env (Some raw) s).
Proof.
  intros Hcmd. unfold reset_performed. rewrite (flash_reset_events env raw s Hcmd).
  unfold reset_events. simpl. tauto.
Qed.

(** C4.  Whatever the state before, a line that reads FLASH_RESET once
    trimmed leaves the store empty, so that loading from it yields four empty
    strings; the four variables are empty, the connectivity flag is off, the
    WiFi driver was told to disconnect, and the status LED was switched on and
    off three times, 100 ms each. *)
Theorem flash_reset_command (env : WiFiEnv) (raw : string) (s : State)
    (Hcmd : WString.trim raw = "FLASH_RESET") :
  let s' := checkSerialInput env (Some raw) s in
  preferences s' = ∅
  /\ (forall t : State, preferences t = preferences s' ->
        config (loadConfig t) = ("", "", "", ""))
  /\ config (loadConfig s') = ("", "", "", "")
  /\ config s' = ("", "", "", "")
  /\ wifiConnected s' = false
  /\ reset_performed s s'
  /\ led_writes (new_events s s') = [HIGH; LOW; HIGH; LOW; HIGH; LOW]
  /\ new_events s s'
     = SerialPrintln "Received command: FLASH_RESET" :: reset_events.
Proof.
  intros s'. subst s'.
  pose proof (flash_reset_events env raw s Hcmd) as Hnew.
  pose proof (flash_reset_marks env raw s Hcmd) as Hmark.
  rewrite Hnew. clear Hnew.
  rewrite (checkSerialInput_reset env raw s Hcmd), resetConfig_state in *.
  split_and!; try reflexivity; try done.
  intros t Ht. rewrite loadConfig_fields. unfold preferences_getString.
  rewrite Ht. reflexivity.
Qed.

(** C9.  A line whose trimmed form starts with none of the five command
    words is only logged: the interpreter writes the two lines announcing the
    command and calling it unknown, and returns a state that differs from the
    one before in nothing else, so configuration, store and connectivity flag
    are as they were. *)
Theorem unrecognized_command_ignored (env : WiFiEnv) (raw : string) (s : State)
    (Hssid : WString.startsWith (WString.trim raw) "WIFI_SSID " = false)
    (Hpass : WString.startsWith (WString.trim raw) "WIFI_PASS " = false)
    (Hurl : WString.startsWith (WString.trim raw) "BASE_URL " = false)
    (Hkey : WString.startsWith (WString.trim raw) "API_KEY " = false)
    (Hreset : WString.startsWith (WString.trim raw) "FLASH_RESET" = false) :
  let s' := checkSerialInput env (Some raw) s in
  s' = emit_all (unknown_events (WString.trim raw)) s
  /\ config s' = config s
  /\ preferences s' = preferences s
  /\ wifiConnected s' = wifiConnected s
  /\ new_events s s' = unknown_events (WString.trim raw).
Proof.
  intros s'. subst s'.
  rewrite checkSerialInput_unknown.
  - split_and!; try reflexivity. apply new_events_emit_all.
  - unfold is_value_command. by rewrite Hssid, Hpass, Hurl, Hkey.
  - intros Heq. rewrite <- Heq, c_str_is_prefix in Hreset. discriminate Hreset.
Qed.

(** ** Command interpreter: how a line is matched *)

Lemma prefixes_disjoint (command : string) :
  (WString.startsWith command "WIFI_PASS " = true ->
     WString.startsWith command "WIFI_SSID " = false)
  /\ (WString.startsWith command "BASE_URL " = true ->
        WString.startsWith command "WIFI_SSID " = false
        /\ WString.startsWith command "WIFI_PASS " = false)
  /\ (WString.startsWith command "API_KEY " = true ->
        WString.startsWith command "WIFI_SSID " = false
        /\ WString.startsWith command "WIFI_PASS " = false
        /\ WString.startsWith command "BASE_URL " = false).
Proof.
  split_and!; intros Hpre; apply startsWith_split in Hpre; rewrite Hpre;
    split_and?; reflexivity.
Qed.

Lemma checkSerialInput_ssid (env : WiFiEnv) (raw : string) (s : State) :
  WString.startsWith (WString.trim raw) "WIFI_SSID " = true ->
  let v := WString.substring 10 (WString.trim raw) in
  checkSerialInput env (Some raw) s
  = reconnect_if_complete env
      (after_value_command env v (wifiPass s) (baseUrl s) (apiKey s)
         (WString.trim raw) ("WiFi SSID set to: " +:+ v) s).
Proof.
  intros Hpre v. unfold checkSerialInput, reconnect_if_complete. cbv zeta.
  rewrite Hpre. cbn [orb andb]. fold v. rewrite saveConfig_state.
  match goal with |- (if _ then connectToWifi env ?s1 else _) = _ =>
    replace s1 with (after_value_command env v (wifiPass s) (baseUrl s) (apiKey s)
                       (WString.trim raw) ("WiFi SSID set to: " +:+ v) s)
      by state_eq
  end.
  reflexivity.
Qed.

Lemma checkSerialInput_pass (env : WiFiEnv) (raw : string) (s : State) :
  WString.startsWith (WString.trim raw) "WIFI_PASS " = true ->
  let v := WString.substring 10 (WString.trim raw) in
  checkSerialInput env (Some raw) s
  = reconnect_if_complete env
      (after_value_command env (wifiSsid s) v (baseUrl s) (apiKey s)
         (WString.trim raw) "WiFi password set" s).
Proof.
  intros Hpre v. unfold checkSerialInput, reconnect_if_complete.
  destruct (prefixes_disjoint (WString.trim raw)) as (Hssid & _ & _).
  cbv zeta. rewrite (Hssid Hpre), Hpre. cbn [orb andb]. fold v.
  rewrite saveConfig_state.
  match goal with |- (if _ then connectToWifi env ?s1 else _) = _ =>
    replace s1 with (after_value_command env (wifiSsid s) v (baseUrl s) (apiKey s)
                       (WString.trim raw) "WiFi password set" s)
      by state_eq
  end.
  reflexivity.
Qed.

Lemma checkSerialInput_url (env : WiFiEnv) (raw : string) (s : State) :
  WString.startsWith (WString.trim raw) "BASE_URL " = true ->
  let v := WString.substring 9 (WString.trim raw) in
  checkSerialInput env (Some raw) s
  = after_value_command env (wifiSsid s) (wifiPass s) v (apiKey s)
      (WString.trim raw) ("Base URL set to: " +:+ v) s.
Proof.
  intros Hpre v. unfold checkSerialInput.
  destruct (prefixes_disjoint (WString.trim raw)) as (_ & Hothers & _).
  destruct (Hothers Hpre) as [Hssid Hpass].
  cbv zeta. rewrite Hssid, Hpass, Hpre. cbn [orb andb]. fold v.
  rewrite saveConfig_state. state_eq.
Qed.

Lemma checkSerialInput_key (env : WiFiEnv) (raw : string) (s : State) :
  WString.startsWith (WString.trim raw) "API_KEY " = true ->
  let v := WString.substring 8 (WString.trim raw) in
  checkSerialInput env (Some raw) s
  = after_value_command env (wifiSsid s) (wifiPass s) (baseUrl s) v
      (WString.trim raw) "API key set" s.
Proof.
  intros Hpre v. unfold checkSerialInput.
  destruct (prefixes_disjoint (WString.trim raw)) as (_ & _ & Hothers).
  destruct (Hothers Hpre) as (Hssid & Hpass & Hurl).
  cbv zeta. rewrite Hssid, Hpass, Hurl, Hpre. cbn [orb andb]. fold v.
  rewrite saveConfig_state. state_eq.
Qed.

Lemma wait_events_no_disconnect (attempts : Z) (rounds : nat) :
  ~ In (WiFiDisconnect true) (wait_events attempts rounds).
Proof.
  revert attempts. induction rounds as [|n IH]; intros attempts Hin; [done|].
  simpl in Hin. destruct Hin as [Hin | [Hin | [Hin | Hin]]]; try discriminate Hin.
  by apply (IH (attempts + 1)).
Qed.

Lemma connectToWifi_effects (env : WiFiEnv) (s : State) :
  exists evs : list Event,
    trace (connectToWifi env s) = trace s ++ evs
    /\ ~ In (WiFiDisconnect true) evs
    /\ config (connectToWifi env s) = config s
    /\ preferences (connectToWifi env s) = preferences s.
Proof.
  destruct (decide (wifiSsid s = "")) as [Hssid | Hssid];
    [|destruct (decide (wifiPass s = "")) as [Hpass | Hpass]].
  - exists [SerialPrintln "WiFi credentials not set"].
    rewrite (connectToWifi_without_guard env s); [|by left].
    split_and!; try reflexivity. intros [Hin | []]. discriminate Hin.
  - exists [SerialPrintln "WiFi credentials not set"].
    rewrite (connectToWifi_without_guard env s); [|by right].
    split_and!; try reflexivity. intros [Hin | []]. discriminate Hin.
  - destruct (connectToWifi_attempt env s Hssid Hpass) as (rounds & _ & _ & _ & _ & ->).
    eexists. split_and!; try reflexivity.
    unfold connect_events. rewrite !in_app_iff. intros [Hin | [Hin | Hin]].
    + simpl in Hin. destruct Hin as [Hin | [Hin | [Hin | []]]]; discriminate Hin.
    + by apply wait_events_no_disconnect in Hin.
    + destruct (status env (S rounds) =? WL_CONNECTED); simpl in Hin;
        repeat (destruct Hin as [Hin | Hin]; try discriminate Hin); done.
Qed.

Lemma reconnect_if_complete_effects (env : WiFiEnv) (s : State) :
  exists evs : list Event,
    trace (reconnect_if_complete env s) = trace s ++ evs
    /\ ~ In (WiFiDisconnect true) evs
    /\ config (reconnect_if_complete env s) = config s
    /\ preferences (reconnect_if_complete env s) = preferences s.
Proof.
  unfold reconnect_if_complete.
  destruct ((0 <? WString.length (wifiSsid s)) && (0 <? WString.length (wifiPass s))).
  - apply connectToWifi_effects.
  - exists []. rewrite app_nil_r. split_and!; try reflexivity. intros [].
Qed.

Lemma value_command_no_reset (env : WiFiEnv) (raw : string) (s : State) :
  is_value_command (WString.trim raw) = true ->
  ~ reset_performed s (checkSerialInput env (Some raw) s).
Proof.
  unfold is_value_command, reset_performed. intros Hval.
  assert (Hlog : forall (c n : string) (evs : list Event),
            ~ In (WiFiDisconnect true) evs ->
            ~ In (WiFiDisconnect true)
                ([SerialPrintln c; SerialPrintln n; SerialPrintln "Configuration saved"]
                 ++ evs)).
  { intros c n evs Hevs [Hin | [Hin | [Hin | Hin]]]; try discriminate Hin. done. }
  destruct (WString.startsWith (WString.trim raw) "WIFI_SSID ") eqn:Hssid;
    [|destruct (WString.startsWith (WString.trim raw) "WIFI_PASS ") eqn:Hpass;
      [|destruct (WString.startsWith (WString.trim raw) "BASE_URL ") eqn:Hurl;
        [|destruct (WString.startsWith (WString.trim raw) "API_KEY ") eqn:Hkey;
          [|discriminate Hval]]]].
  - rewrite (checkSerialInput_ssid env raw s Hssid).
    match goal with |- context [reconnect_if_complete env ?s1] =>
      destruct (reconnect_if_complete_effects env s1) as (evs & Htr & Hno & _) end.
    intros Hin. erewrite new_events_trace in Hin;
      [|rewrite Htr; state_simpl; rewrite <- app_assoc; reflexivity].
    by apply Hlog in Hin.
  - rewrite (checkSerialInput_pass env raw s Hpass).
    match goal with |- context [reconnect_if_complete env ?s1] =>
      destruct (reconnect_if_complete_effects env s1) as (evs & Htr & Hno & _) end.
    intros Hin. erewrite new_events_trace in Hin;
      [|rewrite Htr; state_simpl; rewrite <- app_assoc; reflexivity].
    by apply Hlog in Hin.
  - rewrite (checkSerialInput_url env raw s Hurl).
    intros Hin. erewrite new_events_trace in Hin; [|state_simpl; reflexivity].
    rewrite <- (app_nil_r [_; _; _]) in Hin.
    eapply Hlog; [|exact Hin]. intros [].
  - rewrite (checkSerialInput_key env raw s Hkey).
    intros Hin. erewrite new_events_trace in Hin; [|state_simpl; reflexivity].
    rewrite <- (app_nil_r [_; _; _]) in Hin.
    eapply Hlog; [|exact Hin]. intros [].
Qed.

Lemma unknown_events_no_reset (command : string) :
  ~ In (WiFiDisconnect true) (unknown_events command).
Proof. intros [Hin | [Hin | []]]; discriminate Hin. Qed.

Lemma reset_word_marks (env : WiFiEnv) (raw : string) (s : State) :
  WString.c_str (WString.trim raw) = "FLASH_RESET" ->
  reset_performed s (checkSerialInput env (Some raw) s).
Proof.
  intros Hcmd. unfold reset_performed.
  rewrite (checkSerialInput_reset_word env raw s Hcmd), resetConfig_state.
  erewrite new_events_trace; [|simpl; rewrite <- app_assoc; reflexivity].
  unfold reset_events. simpl. tauto.
Qed.

(** C5 as the firmware has it.  The four commands that carry a value are
    matched by their literal prefix (the command word and one space) in the
    trimmed line, and what follows the prefix becomes the new value, which is
    written to the store at once.  FLASH_RESET is matched by the equality of
    character strings, which stops at the first NUL byte: the reset is
    performed exactly when the trimmed line, read up to its first NUL byte,
    is FLASH_RESET and nothing else.  A trimmed line that starts with
    FLASH_RESET and goes on with anything but a NUL byte is reported as an
    unknown command, with no other change of the state. *)
Theorem command_matching (env : WiFiEnv) (raw : string) (s : State) :
  let command := WString.trim raw in
  let s' := checkSerialInput env (Some raw) s in
  (reset_performed s s' <-> WString.c_str command = "FLASH_RESET")
  /\ (WString.c_str command = "FLASH_RESET" ->
        s' = resetConfig (Serial_println ("Received command: " +:+ command) s))
  /\ (command = "FLASH_RESET" ->
        s' = resetConfig (Serial_println "Received command: FLASH_RESET" s))
  /\ (WString.startsWith command "FLASH_RESET" = true ->
      WString.c_str command <> "FLASH_RESET" ->
        s' = emit_all (unknown_events command) s)
  /\ (WString.startsWith command "WIFI_SSID " = true ->
        config s' = (WString.substring 10 command, wifiPass s, baseUrl s, apiKey s)
        /\ preferences s'
           = written_store env (WString.substring 10 command) (wifiPass s) (baseUrl s)
               (apiKey s) (preferences s))
  /\ (WString.startsWith command "WIFI_PASS " = true ->
        config s' = (wifiSsid s, WString.substring 10 command, baseUrl s, apiKey s)
        /\ preferences s'
           = written_store env (wifiSsid s) (WString.substring 10 command) (baseUrl s)
               (apiKey s) (preferences s))
  /\ (WString.startsWith command "BASE_URL " = true ->
        config s' = (wifiSsid s, wifiPass s, WString.substring 9 command, apiKey s)
        /\ preferences s'
           = written_store env (wifiSsid s) (wifiPass s) (WString.substring 9 command)
               (apiKey s) (preferences s))
  /\ (WString.startsWith command "API_KEY " = true ->
        config s' = (wifiSsid s, wifiPass s, baseUrl s, WString.substring 8 command)
        /\ preferences s'
           = written_store env (wifiSsid s) (wifiPass s) (baseUrl s)
               (WString.substring 8 command) (preferences s)).
Proof.
  intros command s'. subst command s'. split_and!.
  - split.
    + intros Hreset.
      destruct (decide (WString.c_str (WString.trim raw) = "FLASH_RESET"))
        as [Heq | Hneq]; [done|].
      exfalso. destruct (is_value_command (WString.trim raw)) eqn:Hval.
      * by apply (value_command_no_reset env raw s Hval).
      * unfold reset_performed in Hreset.
        rewrite (checkSerialInput_unknown env raw s Hval Hneq) in Hreset.
        rewrite new_events_emit_all in Hreset.
        by apply unknown_events_no_reset in Hreset.
    + intros Heq. by apply reset_word_marks.
  - intros Heq. by apply checkSerialInput_reset_word.
  - intros Heq. by apply checkSerialInput_reset.
  - intros Hpre Hneq. apply checkSerialInput_unknown; [|done].
    by apply reset_prefix_not_value.
  - intros Hpre. rewrite (checkSerialInput_ssid env raw s Hpre).
    match goal with |- context [reconnect_if_complete env ?s1] =>
      destruct (reconnect_if_complete_effects env s1) as (evs & _ & _ & -> & ->) end.
    done.
  - intros Hpre. rewrite (checkSerialInput_pass env raw s Hpre).
    match goal with |- context [reconnect_if_complete env ?s1] =>
      destruct (reconnect_if_complete_effects env s1) as (evs & _ & _ & -> & ->) end.
    done.
  - intros Hpre. by rewrite (checkSerialInput_url env raw s Hpre).
  - intros Hpre. by rewrite (checkSerialInput_key env raw s Hpre).
Qed.

(** ** Input monitor *)

Lemma checkButtonPressAndRelease_steps (p : ButtonPoll) (s : State) :
  checkButtonPressAndRelease p s = channel_step Channel2 p (channel_step Channel1 p s).
Proof.
  unfold checkButtonPressAndRelease, channel_step.
  unfold isDown, pressStart, set_isDown, set_pressStart, level, clock, reply_for,
    activated_line, bound_path.
  cbv beta iota. reflexivity.
Qed.

Lemma last_char_app (a b : string) :
  b <> "" -> last_char (a +:+ b) = last_char b.
Proof.
  intros Hb. induction a as [|c a IH]; [done|].
  change (String c a +:+ b) with (String c (a +:+ b)). simpl.
  destruct (a +:+ b) eqn:Hab; [|exact IH].
  destruct a; [simpl in Hab; by subst | discriminate Hab].
Qed.

Lemma url_not_activated_line (c c' : Channel) (base : string) :
  base +:+ bound_path c' <> activated_line c.
Proof.
  intros Heq. apply (f_equal last_char) in Heq.
  rewrite last_char_app in Heq by (by destruct c').
  destruct c, c'; discriminate Heq.
Qed.

Lemma dispatch_events_congr (endpoint : string) (reply : HttpReply) (s1 s2 : State) :
  wifiConnected s1 = wifiConnected s2 -> baseUrl s1 = baseUrl s2 ->
  apiKey s1 = apiKey s2 ->
  dispatch_events endpoint reply s1 = dispatch_events endpoint reply s2.
Proof.
  intros Hconn Hbase Hkey. unfold dispatch_events.
  destruct (wifiConnected s2) eqn:Hc2;
    [destruct (decide (baseUrl s2 = "")) as [Hb2 | Hb2]|].
  - rewrite !makeApiCall_fails_guard, !new_events_emit_all; try done; right; congruence.
  - rewrite !makeApiCall_request, !new_events_emit_all; try done; try congruence.
    unfold request_events, auth_header. by rewrite Hbase, Hkey.
  - rewrite !makeApiCall_fails_guard, !new_events_emit_all; try done; left; congruence.
Qed.

Lemma activations_app (c : Channel) (evs1 evs2 : list Event) :
  activations c (evs1 ++ evs2) = (activations c evs1 + activations c evs2)%nat.
Proof. apply count_occ_app. Qed.

Lemma activations_dispatch (c c' : Channel) (reply : HttpReply) (s : State) :
  activations c (dispatch_events (bound_path c') reply s) = 0%nat.
Proof.
  unfold activations.
  destruct (wifiConnected s) eqn:Hconn;
    [destruct (decide (baseUrl s = "")) as [Hbase | Hbase]|].
  - unfold dispatch_events. rewrite makeApiCall_fails_guard, new_events_emit_all by (by right).
    by destruct c.
  - rewrite dispatch_events_request by done.
    apply count_occ_not_In. unfold request_events, auth_header, reply_log.
    rewrite !in_app_iff. intros Hin.
    assert (Hurl := url_not_activated_line c c' (baseUrl s)).
    destruct (WString.startsWith _ _), (bool_decide _), (0 <? _); simpl in Hin;
      repeat (destruct Hin as [Hin | Hin]; try discriminate Hin; try done);
      try (injection Hin as Hin; try done; by destruct c).
  - unfold dispatch_events. rewrite makeApiCall_fails_guard, new_events_emit_all by (by left).
    by destruct c.
Qed.

Lemma events_between_refl (s : State) : events_between s s [].
Proof. unfold events_between. by rewrite app_nil_r. Qed.

Lemma events_between_trans (s s1 s2 : State) (evs1 evs2 : list Event) :
  events_between s s1 evs1 -> events_between s1 s2 evs2 ->
  events_between s s2 (evs1 ++ evs2).
Proof.
  intros (Ht1 & Hc1 & Hb1 & Hk1) (Ht2 & Hc2 & Hb2 & Hk2).
  unfold events_between. rewrite Ht2, Ht1, Hc2, Hb2, Hk2, app_assoc. done.
Qed.

Lemma events_between_new (s s' : State) (evs : list Event) :
  events_between s s' evs -> new_events s s' = evs.
Proof. intros (Htr & _). by apply new_events_trace. Qed.

Lemma dispatch_events_between (endpoint : string) (reply : HttpReply)
    (s s' : State) (evs : list Event) :
  events_between s s' evs ->
  dispatch_events endpoint reply s' = dispatch_events endpoint reply s.
Proof. intros (_ & Hc & Hb & Hk). by apply dispatch_events_congr. Qed.

Lemma channel_step_press (c : Channel) (p : ButtonPoll) (s : State) :
  isDown c s = false -> level c p = LOW ->
  events_between s (channel_step c p s) []
  /\ isDown c (channel_step c p s) = true
  /\ pressStart c (channel_step c p s) = clock c p.
Proof.
  intros Hup Hlow. unfold channel_step, events_between. cbv zeta.
  rewrite Hup, Hlow. change (LOW =? LOW) with true. change (LOW =? HIGH) with false.
  cbn [andb negb]. rewrite app_nil_r. by destruct c.
Qed.


Lemma activated_dispatch (c : Channel) (reply : HttpReply) (s : State) :
  makeApiCall (bound_path c) reply (Serial_println (activated_line c) s)
  = emit_all (SerialPrintln (activated_line c)
                :: dispatch_events (bound_path c) reply s) s.
Proof.
  rewrite makeApiCall_emits.
  rewrite (dispatch_events_congr _ _ (Serial_println (activated_line c) s) s)
    by reflexivity.
  state_eq.
Qed.

Lemma channel_step_release (c : Channel) (p : ButtonPoll) (s : State) :
  isDown c s = true -> level c p = HIGH ->
  events_between s (channel_step c p s) (release_events c p s)
  /\ isDown c (channel_step c p s) = false.
Proof.
  intros Hdown Hhigh. unfold channel_step, release_events, events_between. cbv zeta.
  rewrite Hhigh. change (HIGH =? LOW) with false. change (HIGH =? HIGH) with true.
  cbn [andb]. rewrite Hdown.
  destruct (MIN_PRESS_TIME <=? ulong_sub (clock c p) (pressStart c s)).
  - rewrite activated_dispatch. by destruct c.
  - rewrite app_nil_r. by destruct c.
Qed.

Lemma channel_step_shape (c : Channel) (p : ButtonPoll) (s : State) :
  exists (down : bool) (start : Z) (evs : list Event),
    channel_step c p s = set_isDown c down (set_pressStart c start (emit_all evs s))
    /\ (evs = [] \/ evs = SerialPrintln (activated_line c)
                           :: dispatch_events (bound_path c) (reply_for c p) s).
Proof.
  assert (Hsame : forall s0 : State,
            s0 = set_isDown c (isDown c s0)
                   (set_pressStart c (pressStart c s0) (emit_all [] s0))).
  { intros s0. destruct c; state_eq; by rewrite app_nil_r. }
  unfold channel_step. cbv zeta.
  destruct ((level c p =? LOW) && negb (isDown c s)) eqn:Hpress.
  - apply andb_prop in Hpress as [Hlow _]. apply Z.eqb_eq in Hlow. rewrite Hlow.
    change (LOW =? HIGH) with false. cbn [andb].
    exists true, (clock c p), []. split; [|by left].
    destruct c; state_eq; by rewrite app_nil_r.
  - destruct ((level c p =? HIGH) && isDown c s) eqn:Hrel.
    + destruct (MIN_PRESS_TIME <=? ulong_sub (clock c p) (pressStart c s)).
      * eexists false, (pressStart c s), _. split; [|by right].
        rewrite activated_dispatch. destruct c; state_eq.
      * exists false, (pressStart c s), []. split; [|by left].
        destruct c; state_eq; by rewrite app_nil_r.
    + exists (isDown c s), (pressStart c s), []. split; [by apply Hsame | by left].
Qed.

Lemma channel_step_other (c c' : Channel) (p : ButtonPoll) (s : State) :
  c <> c' ->
  exists evs : list Event,
    events_between s (channel_step c' p s) evs
    /\ activations c evs = 0%nat
    /\ isDown c (channel_step c' p s) = isDown c s
    /\ pressStart c (channel_step c' p s) = pressStart c s.
Proof.
  intros Hne.
  destruct (channel_step_shape c' p s) as (down & start & evs & -> & Hevs).
  exists evs. split_and!.
  - by destruct c'.
  - destruct Hevs as [-> | ->]; [done|].
    change (SerialPrintln ?l :: ?t) with ([SerialPrintln l] ++ t).
    rewrite activations_app, activations_dispatch.
    by destruct c, c'.
  - by destruct c, c'.
  - by destruct c, c'.
Qed.



Lemma poll_release (c : Channel) (p : ButtonPoll) (s : State) :
  isDown c s = true -> level c p = HIGH ->
  exists before after : list Event,
    events_between s (checkButtonPressAndRelease p s)
      (before ++ release_events c p s ++ after)
    /\ activations c before = 0%nat
    /\ activations c after = 0%nat
    /\ isDown c (checkButtonPressAndRelease p s) = false.
Proof.
  intros Hdown Hhigh. rewrite checkButtonPressAndRelease_steps. destruct c.
  - destruct (channel_step_release Channel1 p s Hdown Hhigh) as (Hev & Hup).
    destruct (channel_step_other Channel1 Channel2 p (channel_step Channel1 p s))
      as (evs & Hev2 & Hact & Hd & Hs); [done|].
    exists [], evs. rewrite app_nil_l.
    split_and!; [by eapply events_between_trans | done | done |].
    congruence.
  - destruct (channel_step_other Channel2 Channel1 p s)
      as (evs & Hev1 & Hact & Hd & Hs); [done|].
    rewrite <- Hd in Hdown.
    destruct (channel_step_release Channel2 p _ Hdown Hhigh) as (Hev & Hup).
    exists evs, []. rewrite app_nil_r. split_and!; [ | done | done | done].
    replace (release_events Channel2 p s)
      with (release_events Channel2 p (channel_step Channel1 p s)).
    + by eapply events_between_trans.
    + unfold release_events. rewrite Hs.
      by rewrite (dispatch_events_between _ _ _ _ _ Hev1).
Qed.

Lemma run_polls_cons (p : ButtonPoll) (ps : list ButtonPoll) (s : State) :
  run_polls (p :: ps) s = run_polls ps (checkButtonPressAndRelease p s).
Proof. reflexivity. Qed.


Lemma activations_release (c : Channel) (p : ButtonPoll) (s : State) :
  activations c (release_events c p s)
  = if MIN_PRESS_TIME <=? ulong_sub (clock c p) (pressStart c s) then 1%nat else 0%nat.
Proof.
  unfold release_events.
  destruct (MIN_PRESS_TIME <=? ulong_sub (clock c p) (pressStart c s)); [|done].
  change (SerialPrintln ?l :: ?t) with ([SerialPrintln l] ++ t).
  rewrite activations_app, activations_dispatch. by destruct c.
Qed.


(** ** The elapsed time across a wrap of the millisecond counter *)

Lemma ulong_sub_millis (t0 d : Z) :
  ulong_sub (millis_at (t0 + d)) (millis_at t0) = d mod ULONG_MOD.
Proof.
  unfold ulong_sub, millis_at. rewrite <- Zminus_mod. f_equal. lia.
Qed.

Lemma release_count (c : Channel) (p : ButtonPoll) (s : State) :
  isDown c s = true -> level c p = HIGH ->
  activations c (new_events s (checkButtonPressAndRelease p s))
  = if MIN_PRESS_TIME <=? ulong_sub (clock c p) (pressStart c s) then 1%nat else 0%nat.
Proof.
  intros Hdown Hhigh.
  destruct (poll_release c p s Hdown Hhigh) as (before & after & Hev & Hb & Ha & _).
  rewrite (events_between_new _ _ _ Hev), !activations_app, Hb, Ha.
  rewrite activations_release.
  destruct (MIN_PRESS_TIME <=? ulong_sub (clock c p) (pressStart c s)); reflexivity.
Qed.

(** C10 as the firmware has it.  The start of a press is the 32-bit reading
    of the millisecond counter and the test at the release subtracts it from
    the current reading modulo 2^32.  So what is compared with 50 ms is the
    real duration of the press modulo 2^32 ms: for every press that lasts less
    than 2^32 ms (about 49.7 days) the decision is the right one, wherever the
    counter stands at the press and also when it wraps before the release. *)
Theorem elapsed_time_modulo_wrap (c : Channel) (s : State) (p : ButtonPoll) (t0 d : Z)
    (Hdown : isDown c s = true)
    (Hstart : pressStart c s = millis_at t0)
    (Hrelease : level c p = HIGH)
    (Hclock : clock c p = millis_at (t0 + d)) :
  ulong_sub (clock c p) (pressStart c s) = d mod ULONG_MOD
  /\ activations c (new_events s (checkButtonPressAndRelease p s))
     = (if 50 <=? d mod ULONG_MOD then 1%nat else 0%nat)
  /\ (0 <= d < ULONG_MOD ->
      ulong_sub (clock c p) (pressStart c s) = d
      /\ (activations c (new_events s (checkButtonPressAndRelease p s)) = 1%nat
          <-> 50 <= d)
      /\ (activations c (new_events s (checkButtonPressAndRelease p s)) = 0%nat
          <-> d < 50)).
Proof.
  assert (Hsub : ulong_sub (clock c p) (pressStart c s) = d mod ULONG_MOD)
    by (rewrite Hclock, Hstart; apply ulong_sub_millis).
  assert (Hcount : activations c (new_events s (checkButtonPressAndRelease p s))
                   = if 50 <=? d mod ULONG_MOD then 1%nat else 0%nat).
  { rewrite (release_count c p s Hdown Hrelease), Hsub. reflexivity. }
  split_and!; [done | done |].
  intros Hd. rewrite Hsub, Hcount, (Z.mod_small d ULONG_MOD Hd).
  split_and!; [done | |];
    (destruct (50 <=? d) eqn:Hq; [apply Z.leb_le in Hq | apply Z.leb_gt in Hq];
     split; intros; try done; lia).
Qed.

(** * The firmware on the scenarios of the specification *)

(** The three whitespace cases of [trim]. *)
Example trim_strips_both_ends :
  WString.trim "  FLASH_RESET " = "FLASH_RESET"
  /\ WString.trim "WIFI_SSID my home" = "WIFI_SSID my home"
  /\ WString.trim "WIFI_SSID " = "WIFI_SSID".
Proof. split_and!; reflexivity. Qed.

(** Setting the network name alone does not connect; setting the secret as
    well does; a first-button press then requests [/play] on the base address
    without any header, as no credential is set. *)
Example scenario_connect_then_play :
  wifiConnected (checkSerialInput link_up (Some "WIFI_SSID home") initial_state) = false
  /\ wifiConnected
       (checkSerialInput link_up (Some "WIFI_PASS secret1")
          (checkSerialInput link_up (Some "WIFI_SSID home") initial_state)) = true
  /\ dispatch_events "/play" ok_reply
       (checkSerialInput link_up (Some "BASE_URL http://10.0.0.5")
          (checkSerialInput link_up (Some "WIFI_PASS secret1")
             (checkSerialInput link_up (Some "WIFI_SSID home") initial_state)))
     = [SerialPrint "Making API call to: "; SerialPrintln "http://10.0.0.5/play";
        HttpBegin false "http://10.0.0.5/play";
        DigitalWrite STATUS_LED HIGH; HttpGET;
        SerialPrint "HTTP Response code: "; SerialPrintlnInt 200;
        SerialPrintln "Response: ok";
        DigitalWrite STATUS_LED LOW; HttpEnd].
Proof. split_and!; vm_compute; reflexivity. Qed.

(** The second button held for 30 ms: nothing happens at the release. *)
Example scenario_short_press :
  new_events configured_state
    (run_polls [poll2 LOW 1000; poll2 HIGH 1030] configured_state) = [].
Proof. vm_compute. reflexivity. Qed.

(** The second button held for 80 ms: [/pause] is requested, with the
    credential in the header. *)
Example scenario_long_press :
  new_events configured_state
    (run_polls [poll2 LOW 1000; poll2 HIGH 1080] configured_state)
  = [SerialPrintln "Button 2 pressed"; SerialPrint "Making API call to: ";
     SerialPrintln "http://10.0.0.5/pause"; HttpBegin false "http://10.0.0.5/pause";
     HttpAddHeader "Authorization" "Basic dXNlcjpwYXNz";
     DigitalWrite STATUS_LED HIGH; HttpGET;
     SerialPrint "HTTP Response code: "; SerialPrintlnInt 200;
     SerialPrintln "Response: ok";
     DigitalWrite STATUS_LED LOW; HttpEnd].
Proof. vm_compute. reflexivity. Qed.

(** Both buttons released in the same poll after long presses: each is
    reported and dispatched, the first button first. *)
Example scenario_both_buttons :
  activations Channel1
    (new_events initial_state
       (run_polls [mkButtonPoll LOW LOW 10 10 ok_reply ok_reply;
                   mkButtonPoll HIGH HIGH 200 210 ok_reply ok_reply] initial_state))
  = 1%nat
  /\ activations Channel2
       (new_events initial_state
          (run_polls [mkButtonPoll LOW LOW 10 10 ok_reply ok_reply;
                      mkButtonPoll HIGH HIGH 200 210 ok_reply ok_reply] initial_state))
     = 1%nat.
Proof. split; vm_compute; reflexivity. Qed.

(** The link comes up at the fourth poll: three waits, then connected; it
    never comes up: twenty waits, then not connected. *)
Example scenario_link_after_three_waits :
  wifiConnected (connectToWifi (link_after 3) configured_state) = true
  /\ delays (new_events configured_state (connectToWifi (link_after 3) configured_state))
     = replicate 3 500
  /\ wifiConnected (connectToWifi link_down configured_state) = false
  /\ delays (new_events configured_state (connectToWifi link_down configured_state))
     = replicate 20 500.
Proof. split_and!; vm_compute; reflexivity. Qed.

(** A line that reads FLASH_RESET up to a NUL byte and goes on after it:
    the comparison stops at the NUL byte, and the reset is performed. *)
Example scenario_reset_word_before_nul :
  WString.trim ("FLASH_RESET" +:+ String NUL "now") <> "FLASH_RESET"
  /\ reset_performed configured_state
       (checkSerialInput link_up (Some ("FLASH_RESET" +:+ String NUL "now"))
          configured_state)
  /\ preferences
       (checkSerialInput link_up (Some ("FLASH_RESET" +:+ String NUL "now"))
          configured_state) = ∅
  /\ config
       (checkSerialInput link_up (Some ("FLASH_RESET" +:+ String NUL "now"))
          configured_state) = ("", "", "", "").
Proof.
  split_and!; try (vm_compute; reflexivity).
  - vm_compute. discriminate.
  - apply reset_word_marks. reflexivity.
Qed.

(** * Where the firmware departs from the specification *)

(** C5, as stated, fails on the line [FLASH_RESET now]: its trimmed form
    starts with FLASH_RESET, yet no reset takes place.  The line is logged as
    an unknown command and configuration, store and connectivity flag stay
    as they were. *)
Lemma flash_reset_prefix_counterexample :
  WString.startsWith (WString.trim "FLASH_RESET now") "FLASH_RESET" = true
  /\ ~ reset_performed configured_state
         (checkSerialInput link_up (Some "FLASH_RESET now") configured_state)
  /\ new_events configured_state
       (checkSerialInput link_up (Some "FLASH_RESET now") configured_state)
     = [SerialPrintln "Received command: FLASH_RESET now";
        SerialPrintln "Unknown command: FLASH_RESET now"]
  /\ config (checkSerialInput link_up (Some "FLASH_RESET now") configured_state)
     = ("home", "secret1", "http://10.0.0.5", "dXNlcjpwYXNz")
  /\ preferences (checkSerialInput link_up (Some "FLASH_RESET now") configured_state)
     = preferences configured_state
  /\ wifiConnected (checkSerialInput link_up (Some "FLASH_RESET now") configured_state)
     = true.
Proof.
  split_and!; try (vm_compute; reflexivity).
  unfold reset_performed. vm_compute. intros [Hin | [Hin | []]]; discriminate Hin.
Qed.

(** C3, as stated, fails on a credential with a NUL byte in it: the line
    [API_KEY a<NUL>b] sets the variable to the three characters, the store
    keeps the C string [a], and loading after saving yields [a].  It also
    fails when the store refuses the writes: the new network name is in the
    variable, and loading yields the name that was stored before. *)
Lemma saveConfig_nul_counterexample :
  apiKey (checkSerialInput link_up (Some ("API_KEY " +:+ nul_key)) configured_state)
  = nul_key
  /\ apiKey (loadConfig
               (checkSerialInput link_up (Some ("API_KEY " +:+ nul_key)) configured_state))
     = "a"
  /\ apiKey (set_apiKey nul_key configured_state) = nul_key
  /\ config (loadConfig (saveConfig link_up (set_apiKey nul_key configured_state)))
     = ("home", "secret1", "http://10.0.0.5", "a")
  /\ config (loadConfig (saveConfig link_up (set_apiKey nul_key configured_state)))
     <> config (set_apiKey nul_key configured_state)
  /\ wifiSsid (set_wifiSsid "other" configured_state) = "other"
  /\ config (loadConfig (saveConfig store_full (set_wifiSsid "other" configured_state)))
     = ("home", "secret1", "http://10.0.0.5", "dXNlcjpwYXNz").
Proof. split_and!; try (vm_compute; reflexivity). vm_compute. discriminate. Qed.

(** C8, as stated, fails in three ways.  When the link never comes up the
    status is read 22 times, not 20.  When the link is up at the read after
    three waits only, the loop is left within the budget on a link that is
    up, and the call ends with the flag off, since the read after the loop
    finds the link down.  When the link is down at the 21 reads of the loop
    and up at the read after it, the budget is used up without success and
    the call ends with the flag on. *)
Lemma connectToWifi_polls_counterexample :
  wifiSsid configured_state <> "" /\ wifiPass configured_state <> ""
  /\ status_reads link_down configured_state = 22%nat
  /\ status (link_only_at 3) 3 = WL_CONNECTED
  /\ delays (new_events configured_state
               (connectToWifi (link_only_at 3) configured_state)) = replicate 3 500
  /\ status_reads (link_only_at 3) configured_state = 5%nat
  /\ wifiConnected (connectToWifi (link_only_at 3) configured_state) = false
  /\ (forall i : nat, (i <= 20)%nat -> status (link_only_at 21) i <> WL_CONNECTED)
  /\ delays (new_events configured_state
               (connectToWifi (link_only_at 21) configured_state)) = replicate 20 500
  /\ wifiConnected (connectToWifi (link_only_at 21) configured_state) = true.
Proof.
  split_and!; try discriminate; try (vm_compute; reflexivity).
  intros i Hi. unfold link_only_at. cbn [status].
  destruct (Nat.eqb_spec i 21) as [Heq | Hneq]; [lia | discriminate].
Qed.

(** C10, as stated, fails on a press that lasts 2^32 + 10 ms: the counter
    reads 1000 at the press and 1010 at the release, the firmware computes an
    elapsed time of 10 ms and drops the press, although far more than 50 ms
    went by. *)
Lemma long_hold_counterexample :
  50 <= (1000 + (ULONG_MOD + 10)) - 1000
  /\ isDown Channel2 (checkButtonPressAndRelease (poll2 LOW 1000) configured_state) = true
  /\ pressStart Channel2 (checkButtonPressAndRelease (poll2 LOW 1000) configured_state)
     = millis_at 1000
  /\ ulong_sub (millis_at (1000 + (ULONG_MOD + 10))) (millis_at 1000) = 10
  /\ new_events
       (checkButtonPressAndRelease (poll2 LOW 1000) configured_state)
       (checkButtonPressAndRelease (poll2 HIGH (1000 + (ULONG_MOD + 10)))
          (checkButtonPressAndRelease (poll2 LOW 1000) configured_state))
     = []
  /\ isDown Channel2
       (checkButtonPressAndRelease (poll2 HIGH (1000 + (ULONG_MOD + 10)))
          (checkButtonPressAndRelease (poll2 LOW 1000) configured_state))
     = false.
Proof. split_and!; try (vm_compute; reflexivity). vm_compute. discriminate. Qed.

(** * The theorems applied to concrete inputs *)


(** C2: a dispatch on the device as it is at power-up. *)
Lemma makeApiCall_fails_fast_witness :
  (wifiConnected initial_state = false \/ baseUrl initial_state = "")
  /\ dispatch_events "/play" ok_reply initial_state
     = [SerialPrintln "Cannot make API call: WiFi not connected or Base URL not set"].
Proof.
  split; [left; reflexivity|].
  destruct (makeApiCall_fails_fast "/play" ok_reply initial_state
              (or_introl eq_refl)) as (_ & Hevs & _).
  exact Hevs.
Defined.

(** C3: the configured device is saved and loaded again after a power
    cycle; its four strings contain no NUL and the store takes them. *)
Lemma saveConfig_loadConfig_roundtrip_witness :
  preferences rebooted_state = preferences (saveConfig link_up configured_state)
  /\ config (loadConfig rebooted_state) = config configured_state.
Proof.
  split; [reflexivity|].
  destruct (saveConfig_loadConfig_roundtrip link_up configured_state rebooted_state
              eq_refl) as (_ & _ & Hclean & _).
  apply Hclean; [intros key value; reflexivity | reflexivity].
Defined.

(** C4: the command arrives with blanks around it. *)
Lemma flash_reset_command_witness :
  WString.trim "  FLASH_RESET " = "FLASH_RESET"
  /\ preferences (checkSerialInput link_up (Some "  FLASH_RESET ") configured_state) = ∅
  /\ wifiConnected (checkSerialInput link_up (Some "  FLASH_RESET ") configured_state)
     = false.
Proof.
  split; [reflexivity|].
  destruct (flash_reset_command link_up "  FLASH_RESET " configured_state eq_refl)
    as (Hstore & _ & _ & _ & Hflag & _).
  split; [exact Hstore | exact Hflag].
Defined.

(** C6: one request over plain HTTP and one over HTTPS. *)
Lemma authorization_header_iff_credential_witness :
  wifiConnected configured_state = true
  /\ baseUrl configured_state <> ""
  /\ wifiConnected secure_state = true
  /\ baseUrl secure_state <> ""
  /\ (In (HttpAddHeader "Authorization" ("Basic " +:+ apiKey configured_state))
        (dispatch_events "/play" ok_reply configured_state)
      <-> apiKey configured_state <> "")
  /\ (In (HttpAddHeader "Authorization" ("Basic " +:+ apiKey secure_state))
        (dispatch_events "/pause" ok_reply secure_state)
      <-> apiKey secure_state <> "").
Proof.
  assert (Hplain : baseUrl configured_state <> "") by discriminate.
  assert (Hsecure : baseUrl secure_state <> "") by discriminate.
  split_and!; [reflexivity | exact Hplain | reflexivity | exact Hsecure | |].
  - destruct (authorization_header_iff_credential "/play" ok_reply configured_state
                eq_refl Hplain) as (Hiff & _).
    exact Hiff.
  - destruct (authorization_header_iff_credential "/pause" ok_reply secure_state
                eq_refl Hsecure) as (Hiff & _).
    exact Hiff.
Defined.

(** C7: the device at power-up has no credentials. *)
Lemma connectToWifi_without_credentials_witness :
  (wifiSsid initial_state = "" \/ wifiPass initial_state = "")
  /\ new_events initial_state (connectToWifi link_up initial_state)
     = [SerialPrintln "WiFi credentials not set"]
  /\ wifiConnected (connectToWifi link_up initial_state) = false.
Proof.
  split; [left; reflexivity|].
  destruct (connectToWifi_without_credentials link_up initial_state
              (or_introl eq_refl)) as (_ & Hflag & _ & _ & Hevs & _).
  split; [exact Hevs | exact Hflag].
Defined.

(** C8: the link never comes up. *)
Lemma connectToWifi_bounded_witness :
  wifiSsid configured_state <> ""
  /\ wifiPass configured_state <> ""
  /\ exists rounds : nat,
       (rounds <= 20)%nat
       /\ delays (new_events configured_state (connectToWifi link_down configured_state))
          = replicate rounds 500
       /\ status_reads link_down configured_state = (rounds + 2)%nat.
Proof.
  assert (Hssid : wifiSsid configured_state <> "") by discriminate.
  assert (Hpass : wifiPass configured_state <> "") by discriminate.
  split_and!; [exact Hssid | exact Hpass |].
  destruct (connectToWifi_bounded link_down configured_state Hssid Hpass)
    as (rounds & Hle & Hdelays & Hreads & _).
  exists rounds. split_and!; [exact Hle | exact Hdelays | exact Hreads].
Defined.

(** C9: the line [FOO BAR]. *)
Lemma unrecognized_command_ignored_witness :
  WString.startsWith (WString.trim "FOO BAR") "WIFI_SSID " = false
  /\ WString.startsWith (WString.trim "FOO BAR") "WIFI_PASS " = false
  /\ WString.startsWith (WString.trim "FOO BAR") "BASE_URL " = false
  /\ WString.startsWith (WString.trim "FOO BAR") "API_KEY " = false
  /\ WString.startsWith (WString.trim "FOO BAR") "FLASH_RESET" = false
  /\ checkSerialInput link_up (Some "FOO BAR") configured_state
     = emit_all (unknown_events (WString.trim "FOO BAR")) configured_state.
Proof.
  repeat (split; [reflexivity|]).
  destruct (unrecognized_command_ignored link_up "FOO BAR" configured_state
              eq_refl eq_refl eq_refl eq_refl eq_refl) as (Hsame & _).
  exact Hsame.
Defined.

(** C10: the second button is pressed 20 ms before the counter wraps and
    released 60 ms later, when the counter reads 40. *)
Lemma elapsed_time_modulo_wrap_witness :
  isDown Channel2 (checkButtonPressAndRelease (poll2 LOW (ULONG_MOD - 20)) configured_state)
  = true
  /\ pressStart Channel2
       (checkButtonPressAndRelease (poll2 LOW (ULONG_MOD - 20)) configured_state)
     = millis_at (ULONG_MOD - 20)
  /\ level Channel2 (poll2 HIGH (ULONG_MOD - 20 + 60)) = HIGH
  /\ clock Channel2 (poll2 HIGH (ULONG_MOD - 20 + 60)) = millis_at (ULONG_MOD - 20 + 60)
  /\ millis_at (ULONG_MOD - 20 + 60) = 40
  /\ activations Channel2
       (new_events
          (checkButtonPressAndRelease (poll2 LOW (ULONG_MOD - 20)) configured_state)
          (checkButtonPressAndRelease (poll2 HIGH (ULONG_MOD - 20 + 60))
             (checkButtonPressAndRelease (poll2 LOW (ULONG_MOD - 20)) configured_state)))
     = 1%nat.
Proof.
  repeat (split; [reflexivity|]).
  destruct (elapsed_time_modulo_wrap Channel2
              (checkButtonPressAndRelease (poll2 LOW (ULONG_MOD - 20)) configured_state)
              (poll2 HIGH (ULONG_MOD - 20 + 60)) (ULONG_MOD - 20) 60
              eq_refl eq_refl eq_refl eq_refl) as (_ & Hcount & _).
  exact Hcount.
Defined.

(** * Further properties of the firmware *)

(** ** What each function leaves alone *)

Lemma loadConfig_stored (s : State) :
  config (loadConfig s) = stored_config (preferences s)
  /\ preferences (loadConfig s) = preferences s
  /\ wifiConnected (loadConfig s) = wifiConnected s.
Proof. split_and!; reflexivity. Qed.

Lemma config_emit_all (evs : list Event) (s : State) :
  config (emit_all evs s) = config s.
Proof. reflexivity. Qed.

Lemma preferences_emit_all (evs : list Event) (s : State) :
  preferences (emit_all evs s) = preferences s.
Proof. reflexivity. Qed.

Lemma config_fields (s s' : State) :
  config s = config s' ->
  wifiSsid s = wifiSsid s' /\ wifiPass s = wifiPass s'
  /\ baseUrl s = baseUrl s' /\ apiKey s = apiKey s'.
Proof. unfold config. by intros [= -> -> -> ->]. Qed.

Lemma wifiConnected_emit_all (evs : list Event) (s : State) :
  wifiConnected (emit_all evs s) = wifiConnected s.
Proof. reflexivity. Qed.

Lemma trace_emit_all (evs : list Event) (s : State) :
  trace (emit_all evs s) = trace s ++ evs.
Proof. reflexivity. Qed.

Lemma synced_frame (s s' : State) :
  config s' = config s -> preferences s' = preferences s -> synced s -> synced s'.
Proof. unfold synced. by intros -> ->. Qed.

Lemma checkButtonPressAndRelease_frame (p : ButtonPoll) (s : State) :
  config (checkButtonPressAndRelease p s) = config s
  /\ preferences (checkButtonPressAndRelease p s) = preferences s
  /\ wifiConnected (checkButtonPressAndRelease p s) = wifiConnected s.
Proof.
  rewrite checkButtonPressAndRelease_steps.
  destruct (channel_step_shape Channel1 p s) as (d1 & t1 & evs1 & -> & _).
  match goal with |- context [channel_step Channel2 p ?s1] =>
    destruct (channel_step_shape Channel2 p s1) as (d2 & t2 & evs2 & -> & _) end.
  split_and!; reflexivity.
Qed.

Lemma value_command_synced (env : WiFiEnv) (raw : string) (s : State) :
  accepting env -> is_value_command (WString.trim raw) = true ->
  synced (checkSerialInput env (Some raw) s).
Proof.
  unfold is_value_command, synced. intros Haccept Hval.
  destruct (WString.startsWith (WString.trim raw) "WIFI_SSID ") eqn:Hssid;
    [|destruct (WString.startsWith (WString.trim raw) "WIFI_PASS ") eqn:Hpass;
      [|destruct (WString.startsWith (WString.trim raw) "BASE_URL ") eqn:Hurl;
        [|destruct (WString.startsWith (WString.trim raw) "API_KEY ") eqn:Hkey;
          [|discriminate Hval]]]].
  - rewrite (checkSerialInput_ssid env raw s Hssid).
    match goal with |- context [reconnect_if_complete env ?s1] =>
      destruct (reconnect_if_complete_effects env s1) as (evs & _ & _ & -> & ->) end.
    by apply stored_config_accepted.
  - rewrite (checkSerialInput_pass env raw s Hpass).
    match goal with |- context [reconnect_if_complete env ?s1] =>
      destruct (reconnect_if_complete_effects env s1) as (evs & _ & _ & -> & ->) end.
    by apply stored_config_accepted.
  - rewrite (checkSerialInput_url env raw s Hurl). by apply stored_config_accepted.
  - rewrite (checkSerialInput_key env raw s Hkey). by apply stored_config_accepted.
Qed.

Lemma checkSerialInput_synced (env : WiFiEnv) (line : option string) (s : State) :
  accepting env -> synced s -> synced (checkSerialInput env line s).
Proof.
  intros Haccept Hsync. destruct line as [raw|]; [|exact Hsync].
  destruct (is_value_command (WString.trim raw)) eqn:Hval.
  - by apply value_command_synced.
  - destruct (decide (WString.c_str (WString.trim raw) = "FLASH_RESET"))
      as [Hreset | Hother].
    + rewrite (checkSerialInput_reset_word env raw s Hreset), resetConfig_state.
      reflexivity.
    + rewrite (checkSerialInput_unknown env raw s Hval Hother).
      by apply (synced_frame s).
Qed.

Lemma loop_frame_synced (env : WiFiEnv) (line : option string) (p : ButtonPoll)
    (now : Z) (s : State) :
  accepting env -> synced s -> synced (loop env line p now s).
Proof.
  intros Haccept Hsync. apply (checkSerialInput_synced env line) in Hsync; [|done].
  unfold loop. cbv zeta.
  destruct (checkButtonPressAndRelease_frame p (checkSerialInput env line s))
    as (Hcfg & Hstore & _).
  destruct (negb _); by apply (synced_frame (checkSerialInput env line s)).
Qed.

Lemma run_loop_synced (inputs : list LoopInput) (s : State) :
  Forall (fun i => accepting (loop_env i)) inputs ->
  synced s -> synced (run_loop inputs s).
Proof.
  intros Haccept. revert s.
  induction Haccept as [|i inputs Hi _ IH]; intros s Hsync; [exact Hsync|].
  apply IH. by apply loop_frame_synced.
Qed.

(** X1.  As long as the store takes what is written to it, it holds what the
    variables hold, each string up to its first NUL byte: if it does before a
    pass of the main loop, it does after it, whatever the serial port, the
    buttons, the WiFi driver and the clock offer, and so after any number of
    passes.  Loading from the store would then yield the variables cut at
    their first NUL byte, and change nothing when they contain none. *)
Theorem store_stays_in_sync (inputs : list LoopInput) (s : State)
    (Haccept : Forall (fun i => accepting (loop_env i)) inputs)
    (Hsync : synced s) :
  synced (run_loop inputs s)
  /\ config (loadConfig (run_loop inputs s)) = cut_config (config (run_loop inputs s))
  /\ (cut_config (config (run_loop inputs s)) = config (run_loop inputs s) ->
      config (loadConfig (run_loop inputs s)) = config (run_loop inputs s)).
Proof.
  pose proof (run_loop_synced inputs s Haccept Hsync) as Hrun.
  destruct (loadConfig_stored (run_loop inputs s)) as (Hload & _).
  split_and!; [exact Hrun | by rewrite Hload |].
  intros Hclean. by rewrite Hload, <- Hclean.
Qed.

Lemma setup_steps (env : WiFiEnv) (s : State) :
  snd (setup env s)
  = emit_all help_lines
      (reconnect_if_complete env (loadConfig (digitalWrite STATUS_LED LOW s))).
Proof.
  unfold setup, reconnect_if_complete, help_lines. cbv zeta. cbn [snd]. state_eq.
Qed.

Lemma setup_state (env : WiFiEnv) (s : State) :
  config (snd (setup env s)) = stored_config (preferences s)
  /\ preferences (snd (setup env s)) = preferences s.
Proof.
  rewrite setup_steps.
  destruct (reconnect_if_complete_effects env (loadConfig (digitalWrite STATUS_LED LOW s)))
    as (evs & _ & _ & Hcfg & Hstore).
  split.
  - rewrite config_emit_all, Hcfg.
    destruct (loadConfig_stored (digitalWrite STATUS_LED LOW s)) as (-> & _ & _).
    reflexivity.
  - rewrite preferences_emit_all, Hstore. reflexivity.
Qed.

(** X2.  A device that boots on a store of C strings and whose store takes
    what is written to it keeps its configuration over a power cycle:
    whatever happened since [setup] ran, [setup] after switching off and on
    reads from the store the four strings that were in the variables, each
    up to its first NUL byte, hence exactly these strings when they contain
    none; it does not touch the store, which still holds C strings only. *)
Theorem config_survives_power_cycle (env env' : WiFiEnv) (boot : State)
    (inputs : list LoopInput)
    (Hboot : cut_config (stored_config (preferences boot))
             = stored_config (preferences boot))
    (Haccept : Forall (fun i => accepting (loop_env i)) inputs) :
  let running := run_loop inputs (snd (setup env boot)) in
  let restarted := snd (setup env' (power_cycle running)) in
  config restarted = cut_config (config running)
  /\ (cut_config (config running) = config running ->
      config restarted = config running)
  /\ preferences restarted = preferences running
  /\ cut_config (stored_config (preferences restarted))
     = stored_config (preferences restarted).
Proof.
  intros running restarted.
  assert (Hsync : synced running).
  { apply run_loop_synced; [exact Haccept|]. unfold synced.
    destruct (setup_state env boot) as [-> ->]. by rewrite Hboot. }
  destruct (setup_state env' (power_cycle running)) as [Hcfg Hstore].
  assert (Hback : config restarted = cut_config (config running)).
  { subst restarted. rewrite Hcfg. exact Hsync. }
  split_and!; [exact Hback | | exact Hstore |].
  - intros Hclean. by rewrite Hback.
  - subst restarted. rewrite Hstore. change (preferences (power_cycle running))
      with (preferences running). rewrite Hsync.
    destruct (config running) as [[[ssid pass] base] key].
    unfold cut_config. by rewrite !c_str_idemp.
Qed.

(** ** Values set by the commands *)

Lemma trim_trailing_last (s : string) (c : ascii) :
  last_char (WString.trim_trailing s) = Some c -> Ascii.is_space c = false.
Proof.
  induction s as [|a s IH]; [discriminate|].
  cbn [WString.trim_trailing].
  destruct (WString.trim_trailing s) as [|b r] eqn:Htail.
  - destruct (Ascii.is_space a) eqn:Hspace; [discriminate|].
    cbn [last_char]. by intros [= <-].
  - exact IH.
Qed.

Lemma trimmed_value_not_empty (raw prefix : string) :
  (exists p, prefix = p +:+ " ") ->
  WString.startsWith (WString.trim raw) prefix = true ->
  let value := WString.substring (String.length prefix) (WString.trim raw) in
  value <> ""
  /\ forall c, last_char value = Some c -> Ascii.is_space c = false.
Proof.
  intros [p ->] Hpre value.
  pose proof (startsWith_split _ _ Hpre) as Hsplit. fold value in Hsplit.
  assert (Hlast : forall c, last_char (WString.trim raw) = Some c ->
                            Ascii.is_space c = false)
    by (intros c; apply trim_trailing_last).
  split.
  - intros Hempty. rewrite Hempty in Hsplit.
    specialize (Hlast " "%char). rewrite Hsplit in Hlast.
    assert (Hsp : last_char ((p +:+ " ") +:+ "") = Some " "%char).
    { clear. induction p as [|a p IH]; [reflexivity|].
      change ((String a p +:+ " ") +:+ "") with (String a ((p +:+ " ") +:+ "")).
      cbn [last_char]. destruct ((p +:+ " ") +:+ "") eqn:Hrest; [|exact IH].
      destruct p; discriminate Hrest. }
    specialize (Hlast Hsp). discriminate Hlast.
  - intros c Hc. apply Hlast. rewrite Hsplit.
    destruct value as [|v0 vs] eqn:Hv; [discriminate Hc|].
    rewrite last_char_app by discriminate. exact Hc.
Qed.

(** X3.  A command that carries a value never stores an empty one: the line
    is trimmed before it is matched, so what follows the command word and its
    space is not empty and does not end in white space, and that is what the
    variable holds afterwards.  (A line that is only the command word counts
    as unknown; a field is emptied by FLASH_RESET alone.) *)
Theorem value_command_sets_nonempty (env : WiFiEnv) (raw : string) (s : State) :
  let command := WString.trim raw in
  let s' := checkSerialInput env (Some raw) s in
  (WString.startsWith command "WIFI_SSID " = true ->
     wifiSsid s' = WString.substring 10 command /\ wifiSsid s' <> ""
     /\ forall c, last_char (wifiSsid s') = Some c -> Ascii.is_space c = false)
  /\ (WString.startsWith command "WIFI_PASS " = true ->
        wifiPass s' = WString.substring 10 command /\ wifiPass s' <> ""
        /\ forall c, last_char (wifiPass s') = Some c -> Ascii.is_space c = false)
  /\ (WString.startsWith command "BASE_URL " = true ->
        baseUrl s' = WString.substring 9 command /\ baseUrl s' <> ""
        /\ forall c, last_char (baseUrl s') = Some c -> Ascii.is_space c = false)
  /\ (WString.startsWith command "API_KEY " = true ->
        apiKey s' = WString.substring 8 command /\ apiKey s' <> ""
        /\ forall c, last_char (apiKey s') = Some c -> Ascii.is_space c = false)
  /\ (command = "WIFI_SSID" \/ command = "WIFI_PASS" \/ command = "BASE_URL"
      \/ command = "API_KEY" ->
        s' = emit_all (unknown_events command) s).
Proof.
  intros command s'. subst command s'. split_and!.
  - intros Hpre.
    destruct (trimmed_value_not_empty raw "WIFI_SSID " (ex_intro _ "WIFI_SSID" eq_refl) Hpre)
      as [Hne Hlast].
    rewrite (checkSerialInput_ssid env raw s Hpre).
    match goal with |- context [reconnect_if_complete env ?s1] =>
      destruct (reconnect_if_complete_effects env s1) as (evs & _ & _ & Hcfg & _) end.
    apply config_fields in Hcfg as (-> & _). split_and!; [reflexivity | exact Hne | exact Hlast].
  - intros Hpre.
    destruct (trimmed_value_not_empty raw "WIFI_PASS " (ex_intro _ "WIFI_PASS" eq_refl) Hpre)
      as [Hne Hlast].
    rewrite (checkSerialInput_pass env raw s Hpre).
    match goal with |- context [reconnect_if_complete env ?s1] =>
      destruct (reconnect_if_complete_effects env s1) as (evs & _ & _ & Hcfg & _) end.
    apply config_fields in Hcfg as (_ & -> & _). split_and!; [reflexivity | exact Hne | exact Hlast].
  - intros Hpre.
    destruct (trimmed_value_not_empty raw "BASE_URL " (ex_intro _ "BASE_URL" eq_refl) Hpre)
      as [Hne Hlast].
    rewrite (checkSerialInput_url env raw s Hpre).
    split_and!; [reflexivity | exact Hne | exact Hlast].
  - intros Hpre.
    destruct (trimmed_value_not_empty raw "API_KEY " (ex_intro _ "API_KEY" eq_refl) Hpre)
      as [Hne Hlast].
    rewrite (checkSerialInput_key env raw s Hpre).
    split_and!; [reflexivity | exact Hne | exact Hlast].
  - intros Hword. apply checkSerialInput_unknown.
    + destruct Hword as [-> | [-> | [-> | ->]]]; reflexivity.
    + destruct Hword as [-> | [-> | [-> | ->]]]; discriminate.
Qed.

(** ** When the WiFi driver is asked to connect *)

Lemma wait_events_no_begin (attempts : Z) (rounds : nat) (a b : string) :
  ~ In (WiFiBegin a b) (wait_events attempts rounds).
Proof.
  revert attempts. induction rounds as [|n IH]; intros attempts Hin; [done|].
  simpl in Hin. destruct Hin as [Hin | [Hin | [Hin | Hin]]]; try discriminate Hin.
  by apply (IH (attempts + 1)).
Qed.

Lemma connect_events_begin (env : WiFiEnv) (s : State) (rounds : nat) (up : bool)
    (a b : string) :
  In (WiFiBegin a b) (connect_events env s rounds up)
  <-> a = wifiSsid s /\ b = wifiPass s.
Proof.
  unfold connect_events. rewrite !in_app_iff. split.
  - intros [Hin | [Hin | Hin]].
    + simpl in Hin. destruct Hin as [Hin | [Hin | [Hin | []]]]; try discriminate Hin.
      by injection Hin as <- <-.
    + by apply wait_events_no_begin in Hin.
    + destruct up; simpl in Hin;
        repeat (destruct Hin as [Hin | Hin]; try discriminate Hin); done.
  - intros [-> ->]. left. simpl. tauto.
Qed.

Lemma reconnect_if_complete_begin (env : WiFiEnv) (s : State) :
  exists evs : list Event,
    trace (reconnect_if_complete env s) = trace s ++ evs
    /\ (forall a b : string,
          In (WiFiBegin a b) evs
          <-> a = wifiSsid s /\ b = wifiPass s /\ wifiSsid s <> "" /\ wifiPass s <> "")
    /\ (wifiSsid s = "" \/ wifiPass s = "" ->
        evs = [] /\ wifiConnected (reconnect_if_complete env s) = wifiConnected s).
Proof.
  unfold reconnect_if_complete. rewrite !length_pos_ltb.
  destruct (decide (wifiSsid s = "")) as [Hssid | Hssid];
    [|destruct (decide (wifiPass s = "")) as [Hpass | Hpass]].
  - rewrite (bool_decide_eq_true_2 _ Hssid). cbn [negb andb].
    exists []. rewrite app_nil_r. split_and!; [reflexivity | | done].
    intros a b. split; [intros [] | intros (_ & _ & Hne & _); done].
  - rewrite (bool_decide_eq_true_2 _ Hpass), andb_false_r.
    exists []. rewrite app_nil_r. split_and!; [reflexivity | | done].
    intros a b. split; [intros [] | intros (_ & _ & _ & Hne); done].
  - rewrite !bool_decide_eq_false_2 by done. cbn [negb andb].
    destruct (connectToWifi_attempt env s Hssid Hpass) as (rounds & _ & _ & _ & _ & ->).
    eexists. split_and!; [reflexivity | |].
    + intros a b. rewrite connect_events_begin. tauto.
    + intros [Hempty | Hempty]; done.
Qed.


Lemma loadConfig_trace (s : State) :
  trace (loadConfig s)
  = trace s ++ load_log (preferences_getString "wifiSsid" "" s)
                 (preferences_getString "baseUrl" "" s)
                 (preferences_getString "apiKey" "" s).
Proof.
  unfold loadConfig, load_log. cbv zeta. state_simpl.
  rewrite <- !app_assoc. reflexivity.
Qed.

(** X5.  At start-up the WiFi driver is asked to connect exactly when the
    store holds both a network name and a secret, and then with these two;
    when one of them is missing [setup] does nothing on the network and
    leaves the connectivity flag as it was.  Switching the status LED off is
    the first effect that [setup] leaves in the trace, and the store is only
    read. *)
Theorem setup_connects_iff_stored_credentials (env : WiFiEnv) (s : State) :
  let ssid := preferences_getString "wifiSsid" "" s in
  let pass := preferences_getString "wifiPass" "" s in
  let s' := snd (setup env s) in
  (forall a b : string,
     In (WiFiBegin a b) (new_events s s')
     <-> a = ssid /\ b = pass /\ ssid <> "" /\ pass <> "")
  /\ (ssid = "" \/ pass = "" ->
      wifiConnected s' = wifiConnected s
      /\ new_events s s'
         = DigitalWrite STATUS_LED LOW
             :: load_log ssid (preferences_getString "baseUrl" "" s)
                  (preferences_getString "apiKey" "" s)
             ++ help_lines)
  /\ head (new_events s s') = Some (DigitalWrite STATUS_LED LOW)
  /\ preferences s' = preferences s.
Proof.
  intros ssid pass s'. subst s'. rewrite setup_steps.
  destruct (reconnect_if_complete_begin env (loadConfig (digitalWrite STATUS_LED LOW s)))
    as (evs & Htr & Hbegin & Hnone).
  change (wifiSsid (loadConfig (digitalWrite STATUS_LED LOW s))) with ssid in *.
  change (wifiPass (loadConfig (digitalWrite STATUS_LED LOW s))) with pass in *.
  rewrite loadConfig_trace in Htr.
  change (preferences_getString ?k "" (digitalWrite STATUS_LED LOW s))
    with (preferences_getString k "" s) in Htr.
  fold ssid in Htr.
  assert (Hnew : new_events s
            (emit_all help_lines
               (reconnect_if_complete env (loadConfig (digitalWrite STATUS_LED LOW s))))
          = DigitalWrite STATUS_LED LOW
              :: load_log ssid (preferences_getString "baseUrl" "" s)
                   (preferences_getString "apiKey" "" s)
              ++ evs ++ help_lines).
  { apply new_events_trace. cbn [trace emit_all]. rewrite Htr.
    cbn [trace digitalWrite emit]. rewrite <- !app_assoc. reflexivity. }
  rewrite Hnew. split_and!.
  - intros a b. rewrite <- Hbegin. cbn [In]. rewrite !in_app_iff.
    unfold load_log, help_lines. cbn [In]. split; [|tauto].
    intros Hin. repeat (destruct Hin as [Hin | Hin]; try discriminate Hin; try done).
  - intros Hmissing. destruct (Hnone Hmissing) as [-> Hflag]. split; [|reflexivity].
    rewrite wifiConnected_emit_all, Hflag. reflexivity.
  - reflexivity.
  - destruct (setup_state env s) as [_ Hstore]. rewrite setup_steps in Hstore.
    exact Hstore.
Qed.

(** ** A request that is sent *)

Lemma led_writes_app (evs1 evs2 : list Event) :
  led_writes (evs1 ++ evs2) = led_writes evs1 ++ led_writes evs2.
Proof. apply omap_app. Qed.

Lemma request_events_split (endpoint : string) (reply : HttpReply) (s : State) :
  request_events endpoint reply s
  = ([SerialPrint "Making API call to: "; SerialPrintln (baseUrl s +:+ endpoint)]
     ++ (if WString.startsWith (baseUrl s +:+ endpoint) "https://"
         then [SetInsecure] else [])
     ++ [HttpBegin (WString.startsWith (baseUrl s +:+ endpoint) "https://")
           (baseUrl s +:+ endpoint)]
     ++ auth_header s)
    ++ [DigitalWrite STATUS_LED HIGH; HttpGET]
    ++ reply_log (WString.startsWith (baseUrl s +:+ endpoint) "https://") reply
    ++ [DigitalWrite STATUS_LED LOW; HttpEnd].
Proof. unfold request_events. cbv zeta. by rewrite <- !app_assoc. Qed.

(** X6.  A request that is sent is bracketed by the status LED: the LED is
    switched on right before the one [GET], nothing else is written to it
    until it is switched off after the reply was logged, and it is off when
    [makeApiCall] returns, whatever the server answered.  The return code is
    always logged; the body is logged when the code is positive and is not
    read at all otherwise. *)
Theorem request_bracketed_by_led (endpoint : string) (reply : HttpReply) (s : State)
    (Hconn : wifiConnected s = true) (Hbase : baseUrl s <> "") :
  let evs := dispatch_events endpoint reply s in
  led_writes evs = [HIGH; LOW]
  /\ indicator (trace (makeApiCall endpoint reply s)) = Some LOW
  /\ count_occ Event_eq_dec evs HttpGET = 1%nat
  /\ exists before during : list Event,
       evs = before ++ [DigitalWrite STATUS_LED HIGH; HttpGET]
                   ++ during ++ [DigitalWrite STATUS_LED LOW; HttpEnd]
       /\ led_writes before = [] /\ led_writes during = []
       /\ In (SerialPrintlnInt (httpResponseCode reply)) during
       /\ (0 < httpResponseCode reply ->
           In (SerialPrintln ("Response: " +:+ response reply)) during)
       /\ (httpResponseCode reply <= 0 -> length during = 2%nat).
Proof.
  intros evs. subst evs.
  assert (Hled : led_writes (dispatch_events endpoint reply s) = [HIGH; LOW]).
  { rewrite (dispatch_events_request _ _ _ Hconn Hbase).
    unfold request_events, auth_header, reply_log.
    destruct (WString.startsWith (baseUrl s +:+ endpoint) "https://");
      destruct (bool_decide (apiKey s = ""));
      destruct (0 <? httpResponseCode reply); reflexivity. }
  split_and!.
  - exact Hled.
  - rewrite makeApiCall_emits. unfold indicator. cbn [trace emit_all].
    rewrite led_writes_app, Hled.
    change [HIGH; LOW] with ([HIGH] ++ [LOW]). rewrite app_assoc. apply last_snoc.
  - rewrite (dispatch_events_request _ _ _ Hconn Hbase).
    unfold request_events, auth_header, reply_log.
    destruct (WString.startsWith (baseUrl s +:+ endpoint) "https://");
      destruct (bool_decide (apiKey s = ""));
      destruct (0 <? httpResponseCode reply); reflexivity.
  - rewrite (dispatch_events_request _ _ _ Hconn Hbase), request_events_split.
    eexists _, _. split; [reflexivity|].
    unfold auth_header, reply_log. split_and!.
    + destruct (WString.startsWith (baseUrl s +:+ endpoint) "https://");
        destruct (bool_decide (apiKey s = "")); reflexivity.
    + destruct (WString.startsWith (baseUrl s +:+ endpoint) "https://");
        destruct (0 <? httpResponseCode reply); reflexivity.
    + destruct (0 <? httpResponseCode reply); cbn [In]; tauto.
    + intros Hpos. apply Z.ltb_lt in Hpos. rewrite Hpos. cbn [In]. tauto.
    + intros Hneg. replace (0 <? httpResponseCode reply) with false
        by (symmetry; apply Z.ltb_ge; lia).
      reflexivity.
Qed.

(** X7.  The transport is chosen by the first characters of the address
    that is requested, base address and path put together: certificate
    checking is switched off, and the secure client used, exactly when that
    address starts with [https://] in lower case; the request always goes to
    that address as it is. *)
Theorem transport_follows_scheme (endpoint : string) (reply : HttpReply) (s : State)
    (Hconn : wifiConnected s = true) (Hbase : baseUrl s <> "") :
  let evs := dispatch_events endpoint reply s in
  let url := baseUrl s +:+ endpoint in
  (In SetInsecure evs <-> WString.startsWith url "https://" = true)
  /\ (forall (secure : bool) (target : string),
        In (HttpBegin secure target) evs
        <-> secure = WString.startsWith url "https://" /\ target = url).
Proof.
  intros evs url. subst evs.
  rewrite (dispatch_events_request _ _ _ Hconn Hbase). split.
  - unfold request_events, auth_header, reply_log. fold url.
    destruct (WString.startsWith url "https://");
      destruct (bool_decide (apiKey s = ""));
      destruct (0 <? httpResponseCode reply); cbn [app In];
      (split; [intros Hin; repeat (destruct Hin as [Hin | Hin]; try discriminate Hin);
               done
              | intros Htrue; try discriminate Htrue; tauto]).
  - intros secure target. rewrite <- !list_elem_of_In.
    transitivity (HttpBegin secure target
                    ∈ filter (fun e => is_request_event e = true)
                        (request_events endpoint reply s)).
    + rewrite list_elem_of_filter. cbn [is_request_event]. tauto.
    + rewrite request_events_filter. fold url. unfold auth_header.
      rewrite elem_of_cons, elem_of_app.
      destruct (bool_decide (apiKey s = "")); rewrite ?elem_of_cons, ?elem_of_nil;
        (split; [intros [Hin | Hin];
                  [by injection Hin as -> ->
                  | repeat (destruct Hin as [Hin | Hin]; try discriminate Hin); done]
                | intros [-> ->]; by left]).
Qed.

(** ** The input monitor, one channel at a time *)

Lemma channel_step_own (c : Channel) (p : ButtonPoll) (s : State) :
  exists evs : list Event,
    events_between s (channel_step c p s) evs
    /\ tracking c (channel_step c p s)
       = track_step (level c p) (clock c p) (tracking c s)
    /\ activations c evs
       = (if fires (level c p) (clock c p) (tracking c s) then 1%nat else 0%nat)
    /\ (evs = [] \/ evs = SerialPrintln (activated_line c)
                            :: dispatch_events (bound_path c) (reply_for c p) s).
Proof.
  unfold track_step, fires, tracking. cbn [fst snd].
  destruct (isDown c s) eqn:Hdown.
  - destruct (decide (level c p = HIGH)) as [Hhigh | Hother].
    + destruct (channel_step_release c p s Hdown Hhigh) as [Hev Hup].
      exists (release_events c p s). rewrite Hhigh.
      change (HIGH =? LOW) with false. change (HIGH =? HIGH) with true.
      cbn [andb negb]. split_and!.
      * exact Hev.
      * rewrite Hup. f_equal.
        unfold channel_step. cbv zeta. rewrite Hhigh, Hdown.
        change (HIGH =? LOW) with false. change (HIGH =? HIGH) with true.
        cbn [andb negb]. rewrite Hdown.
        destruct (MIN_PRESS_TIME <=? ulong_sub (clock c p) (pressStart c s));
          [rewrite activated_dispatch|]; by destruct c.
      * apply activations_release.
      * unfold release_events.
        destruct (MIN_PRESS_TIME <=? ulong_sub (clock c p) (pressStart c s));
          [by right | by left].
    + assert (Hstay : channel_step c p s = s).
      { unfold channel_step. cbv zeta. rewrite Hdown. cbn [negb].
        rewrite andb_false_r, Hdown.
        replace (level c p =? HIGH) with false
          by (symmetry; by apply Z.eqb_neq).
        reflexivity. }
      exists []. rewrite Hstay, andb_false_r.
      replace (level c p =? HIGH) with false by (symmetry; by apply Z.eqb_neq).
      split_and!; [apply events_between_refl | by rewrite Hdown | reflexivity | by left].
  - rewrite !andb_false_r. cbn [negb]. rewrite andb_true_r.
    destruct (decide (level c p = LOW)) as [Hlow | Hother].
    + destruct (channel_step_press c p s Hdown Hlow) as (Hev & Hd & Hst).
      exists []. rewrite Hlow. change (LOW =? LOW) with true. cbn [andb].
      split_and!; [exact Hev | by rewrite Hd, Hst | reflexivity | by left].
    + assert (Hstay : channel_step c p s = s).
      { unfold channel_step. cbv zeta. rewrite Hdown.
        replace (level c p =? LOW) with false by (symmetry; by apply Z.eqb_neq).
        cbn [andb]. rewrite Hdown, andb_false_r. reflexivity. }
      exists []. rewrite Hstay.
      replace (level c p =? LOW) with false by (symmetry; by apply Z.eqb_neq).
      split_and!; [apply events_between_refl | by rewrite Hdown | reflexivity | by left].
Qed.

Lemma poll_channel (c : Channel) (p : ButtonPoll) (s : State) :
  exists evs : list Event,
    events_between s (checkButtonPressAndRelease p s) evs
    /\ tracking c (checkButtonPressAndRelease p s)
       = track_step (level c p) (clock c p) (tracking c s)
    /\ activations c evs
       = (if fires (level c p) (clock c p) (tracking c s) then 1%nat else 0%nat).
Proof.
  rewrite checkButtonPressAndRelease_steps. destruct c.
  - destruct (channel_step_own Channel1 p s) as (evs1 & Hev1 & Htr1 & Hact1 & _).
    destruct (channel_step_other Channel1 Channel2 p (channel_step Channel1 p s))
      as (evs2 & Hev2 & Hact2 & Hd & Hs); [done|].
    exists (evs1 ++ evs2). split_and!.
    + by eapply events_between_trans.
    + unfold tracking. rewrite Hd, Hs. exact Htr1.
    + rewrite activations_app, Hact1, Hact2. lia.
  - destruct (channel_step_other Channel2 Channel1 p s)
      as (evs1 & Hev1 & Hact1 & Hd & Hs); [done|].
    destruct (channel_step_own Channel2 p (channel_step Channel1 p s))
      as (evs2 & Hev2 & Htr2 & Hact2 & _).
    assert (Htrack : tracking Channel2 (channel_step Channel1 p s) = tracking Channel2 s)
      by (unfold tracking; by rewrite Hd, Hs).
    rewrite Htrack in *.
    exists (evs1 ++ evs2). split_and!.
    + by eapply events_between_trans.
    + exact Htr2.
    + rewrite activations_app, Hact1, Hact2. lia.
Qed.

Lemma run_polls_events (ps : list ButtonPoll) :
  forall s : State, exists evs : list Event, events_between s (run_polls ps s) evs.
Proof.
  induction ps as [|p ps IH]; intros s.
  - exists []. apply events_between_refl.
  - destruct (poll_channel Channel1 p s) as (evs1 & Hev1 & _).
    destruct (IH (checkButtonPressAndRelease p s)) as (evs2 & Hev2).
    exists (evs1 ++ evs2). rewrite run_polls_cons. by eapply events_between_trans.
Qed.

Lemma run_polls_channel (c : Channel) (ps : list ButtonPoll) :
  forall s : State,
  exists evs : list Event,
    events_between s (run_polls ps s) evs
    /\ forall (ps' : list ButtonPoll) (s' : State),
         channel_inputs c ps' = channel_inputs c ps ->
         tracking c s' = tracking c s ->
         tracking c (run_polls ps' s') = tracking c (run_polls ps s)
         /\ activations c (new_events s' (run_polls ps' s')) = activations c evs.
Proof.
  induction ps as [|p ps IH]; intros s.
  - exists []. split; [apply events_between_refl|].
    intros [|p' ps'] s' Hin Htr; [|discriminate Hin].
    split; [exact Htr|]. cbn [run_polls foldl].
    by rewrite (events_between_new _ _ _ (events_between_refl s')).
  - destruct (poll_channel c p s) as (evs1 & Hev1 & Htr1 & Hact1).
    destruct (IH (checkButtonPressAndRelease p s)) as (evs2 & Hev2 & Hrest).
    exists (evs1 ++ evs2). rewrite run_polls_cons.
    split; [by eapply events_between_trans|].
    intros [|p' ps'] s' Hin Htr; [discriminate Hin|].
    cbn [channel_inputs map] in Hin. injection Hin as Hlvl Hclk Hin.
    destruct (poll_channel c p' s') as (evs1' & Hev1' & Htr1' & Hact1').
    rewrite Hlvl, Hclk, Htr in Htr1', Hact1'.
    destruct (run_polls_events ps' (checkButtonPressAndRelease p' s')) as (evs2' & Hev2').
    destruct (Hrest ps' (checkButtonPressAndRelease p' s') Hin) as [Htrack Hact];
      [congruence|].
    rewrite run_polls_cons. split; [exact Htrack|].
    rewrite (events_between_new _ _ _ (events_between_trans _ _ _ _ _ Hev1' Hev2')).
    rewrite (events_between_new _ _ _ Hev2') in Hact.
    rewrite !activations_app. congruence.
Qed.

(** X8.  The two channels do not interfere.  How often a channel is reported
    as activated over any run of polls, and what its down mark and start time
    are at the end, depend only on the levels and the clock readings offered
    to that channel and on its own mark and start time at the beginning: not
    on the other button, not on the configuration, the connectivity or the
    replies of the server. *)
Theorem channels_do_not_interfere (c : Channel) (ps ps' : list ButtonPoll)
    (s s' : State)
    (Hinputs : channel_inputs c ps = channel_inputs c ps')
    (Hstart : tracking c s = tracking c s') :
  activations c (new_events s (run_polls ps s))
  = activations c (new_events s' (run_polls ps' s'))
  /\ tracking c (run_polls ps s) = tracking c (run_polls ps' s').
Proof.
  destruct (run_polls_channel c ps' s') as (evs & Hev & Hsame).
  destruct (Hsame ps s Hinputs Hstart) as [Htrack Hact].
  rewrite (events_between_new _ _ _ Hev). by split.
Qed.

(** X9.  A channel is reported as activated only by a poll that finds it
    marked down and reads the released level: a poll that finds the channel
    up, or reads any other level for it, reports no activation of it,
    whatever the other button does in the same poll. *)
Theorem idle_channel_never_activates (c : Channel) (p : ButtonPoll) (s : State)
    (Hidle : isDown c s = false \/ level c p <> HIGH) :
  activations c (new_events s (checkButtonPressAndRelease p s)) = 0%nat.
Proof.
  destruct (poll_channel c p s) as (evs & Hev & _ & Hact).
  rewrite (events_between_new _ _ _ Hev), Hact. unfold fires, tracking. cbn [fst snd].
  destruct Hidle as [-> | Hlevel].
  - by rewrite andb_false_r.
  - replace (level c p =? HIGH) with false by (symmetry; by apply Z.eqb_neq).
    reflexivity.
Qed.

Lemma channel_step_offline (c : Channel) (p : ButtonPoll) (s : State) :
  offline s ->
  exists evs : list Event,
    events_between s (channel_step c p s) evs
    /\ Forall (fun e => is_network_event e = false) evs.
Proof.
  intros Hoff.
  destruct (channel_step_own c p s) as (evs & Hev & _ & _ & Hshape).
  exists evs. split; [exact Hev|].
  destruct Hshape as [-> | ->]; [constructor|].
  unfold dispatch_events. rewrite (makeApiCall_fails_guard _ _ s Hoff).
  rewrite new_events_emit_all. by repeat constructor.
Qed.

Lemma offline_between (s s' : State) (evs : list Event) :
  events_between s s' evs -> offline s -> offline s'.
Proof. intros (_ & Hc & Hb & _). unfold offline. by rewrite Hc, Hb. Qed.

Lemma poll_offline (p : ButtonPoll) (s : State) :
  offline s ->
  exists evs : list Event,
    events_between s (checkButtonPressAndRelease p s) evs
    /\ Forall (fun e => is_network_event e = false) evs.
Proof.
  intros Hoff. rewrite checkButtonPressAndRelease_steps.
  destruct (channel_step_offline Channel1 p s Hoff) as (evs1 & Hev1 & Hq1).
  destruct (channel_step_offline Channel2 p (channel_step Channel1 p s)
              (offline_between _ _ _ Hev1 Hoff)) as (evs2 & Hev2 & Hq2).
  exists (evs1 ++ evs2). split; [by eapply events_between_trans|].
  by apply Forall_app.
Qed.

Lemma run_polls_offline (ps : list ButtonPoll) :
  forall s : State,
    offline s ->
    exists evs : list Event,
      events_between s (run_polls ps s) evs
      /\ Forall (fun e => is_network_event e = false) evs.
Proof.
  induction ps as [|p ps IH]; intros s Hoff.
  - exists []. split; [apply events_between_refl | constructor].
  - destruct (poll_offline p s Hoff) as (evs1 & Hev1 & Hq1).
    destruct (IH _ (offline_between _ _ _ Hev1 Hoff)) as (evs2 & Hev2 & Hq2).
    exists (evs1 ++ evs2). rewrite run_polls_cons.
    split; [by eapply events_between_trans | by apply Forall_app].
Qed.

(** X10.  While the connectivity flag is off or no base address is set,
    the buttons cause no network traffic at all: over any run of polls,
    whatever is pressed and for however long, no effect touches the network,
    and the device is as unable to send a request afterwards as before. *)
Theorem offline_polls_stay_off_the_network (ps : list ButtonPoll) (s : State)
    (Hoff : offline s) :
  Forall (fun e => is_network_event e = false) (new_events s (run_polls ps s))
  /\ offline (run_polls ps s).
Proof.
  destruct (run_polls_offline ps s Hoff) as (evs & Hev & Hquiet).
  rewrite (events_between_new _ _ _ Hev). split; [exact Hquiet|].
  by apply (offline_between _ _ _ Hev).
Qed.

Lemma run_polls_frame (ps : list ButtonPoll) :
  forall s : State,
    config (run_polls ps s) = config s
    /\ preferences (run_polls ps s) = preferences s
    /\ wifiConnected (run_polls ps s) = wifiConnected s.
Proof.
  induction ps as [|p ps IH]; intros s; [by split_and!|].
  rewrite run_polls_cons.
  destruct (IH (checkButtonPressAndRelease p s)) as (-> & -> & ->).
  apply checkButtonPressAndRelease_frame.
Qed.

(** X14.  After a FLASH_RESET the device is silent on the network until it
    is configured again: whatever the buttons do, no effect touches the
    network, configuration and store stay empty, and a connection attempt
    only reports that the credentials are missing. *)
Theorem reset_device_stays_silent (env env' : WiFiEnv) (raw : string) (s : State)
    (ps : list ButtonPoll)
    (Hcmd : WString.trim raw = "FLASH_RESET") :
  let s' := run_polls ps (checkSerialInput env (Some raw) s) in
  Forall (fun e => is_network_event e = false)
    (new_events (checkSerialInput env (Some raw) s) s')
  /\ config s' = ("", "", "", "")
  /\ preferences s' = ∅
  /\ wifiConnected s' = false
  /\ new_events s' (connectToWifi env' s') = [SerialPrintln "WiFi credentials not set"].
Proof.
  intros s'. subst s'.
  destruct (run_polls_frame ps (checkSerialInput env (Some raw) s))
    as (Hcfg & Hstore & Hflag).
  rewrite (checkSerialInput_reset env raw s Hcmd), resetConfig_state in *.
  match goal with |- context [run_polls ps ?s0] =>
    destruct (run_polls_offline ps s0) as (evs & Hev & Hquiet); [by left|] end.
  split_and!.
  - by rewrite (events_between_new _ _ _ Hev).
  - exact Hcfg.
  - exact Hstore.
  - exact Hflag.
  - rewrite connectToWifi_without_guard.
    + apply new_events_emit_all.
    + left. by apply config_fields in Hcfg as (-> & _).
Qed.

(** ** What reaches the log *)

(** X11.  The report of [loadConfig] shows the network name and the base
    address, and of the credential only whether there is one: two stores that
    agree on these give the same report, whatever the network secrets and the
    credentials they hold. *)
Theorem loadConfig_log_hides_secrets (s s' : State)
    (Hssid : preferences_getString "wifiSsid" "" s = preferences_getString "wifiSsid" "" s')
    (Hbase : preferences_getString "baseUrl" "" s = preferences_getString "baseUrl" "" s')
    (Hkey : preferences_getString "apiKey" "" s = ""
            <-> preferences_getString "apiKey" "" s' = "") :
  new_events s (loadConfig s) = new_events s' (loadConfig s').
Proof.
  rewrite (new_events_trace _ _ _ (loadConfig_trace s)).
  rewrite (new_events_trace _ _ _ (loadConfig_trace s')).
  unfold load_log. rewrite Hssid, Hbase, !length_pos_ltb.
  do 4 f_equal. 
  destruct (decide (preferences_getString "apiKey" "" s = "")) as [He | Hne].
  - rewrite (bool_decide_eq_true_2 _ He), (bool_decide_eq_true_2 _ (proj1 Hkey He)).
    reflexivity.
  - assert (Hne' : preferences_getString "apiKey" "" s' <> "") by tauto.
    by rewrite !bool_decide_eq_false_2.
Qed.

(** X12.  Every line that arrives is written to the log as it is, trimmed,
    before anything else happens, also when it sets the network secret or the
    credential: the notices that follow leave the secret out, the echo of the
    line does not. *)
Theorem received_line_is_echoed (env : WiFiEnv) (raw : string) (s : State) :
  head (new_events s (checkSerialInput env (Some raw) s))
  = Some (SerialPrintln ("Received command: " +:+ WString.trim raw)).
Proof.
  assert (Hfirst : forall (s1 : State) (evs : list Event),
            trace s1 = trace s
                       ++ SerialPrintln ("Received command: " +:+ WString.trim raw) :: evs ->
            head (new_events s s1)
            = Some (SerialPrintln ("Received command: " +:+ WString.trim raw))).
  { intros s1 evs Htr. by rewrite (new_events_trace _ _ _ Htr). }
  destruct (is_value_command (WString.trim raw)) eqn:Hval.
  - unfold is_value_command in Hval.
    destruct (WString.startsWith (WString.trim raw) "WIFI_SSID ") eqn:Hssid;
      [|destruct (WString.startsWith (WString.trim raw) "WIFI_PASS ") eqn:Hpass;
        [|destruct (WString.startsWith (WString.trim raw) "BASE_URL ") eqn:Hurl;
          [|destruct (WString.startsWith (WString.trim raw) "API_KEY ") eqn:Hkey;
            [|discriminate Hval]]]].
    + rewrite (checkSerialInput_ssid env raw s Hssid).
      match goal with |- context [reconnect_if_complete env ?s1] =>
        destruct (reconnect_if_complete_effects env s1) as (evs & Htr & _) end.
      eapply Hfirst. rewrite Htr. state_simpl. rewrite <- app_assoc. reflexivity.
    + rewrite (checkSerialInput_pass env raw s Hpass).
      match goal with |- context [reconnect_if_complete env ?s1] =>
        destruct (reconnect_if_complete_effects env s1) as (evs & Htr & _) end.
      eapply Hfirst. rewrite Htr. state_simpl. rewrite <- app_assoc. reflexivity.
    + rewrite (checkSerialInput_url env raw s Hurl). eapply Hfirst. reflexivity.
    + rewrite (checkSerialInput_key env raw s Hkey). eapply Hfirst. reflexivity.
  - destruct (decide (WString.c_str (WString.trim raw) = "FLASH_RESET"))
      as [Hreset | Hother].
    + rewrite (checkSerialInput_reset_word env raw s Hreset), resetConfig_state.
      eapply Hfirst. cbn [trace Serial_println emit]. rewrite <- app_assoc. reflexivity.
    + rewrite (checkSerialInput_unknown env raw s Hval Hother).
      eapply Hfirst. reflexivity.
Qed.

(** ** The status LED *)

Lemma indicator_app (tr evs : list Event) :
  indicator (tr ++ evs)
  = match last (led_writes evs) with Some l => Some l | None => indicator tr end.
Proof. unfold indicator. rewrite led_writes_app. apply last_app. Qed.

Lemma led_step_refl (s : State) : led_step s s.
Proof.
  exists []. rewrite app_nil_r. split; [reflexivity|]. intros Hc. right. by split.
Qed.

Lemma led_step_trans (s s1 s2 : State) :
  led_step s s1 -> led_step s1 s2 -> led_step s s2.
Proof.
  intros (evs1 & Htr1 & H1) (evs2 & Htr2 & H2).
  exists (evs1 ++ evs2). split; [by rewrite Htr2, Htr1, app_assoc|].
  intros Hc. rewrite led_writes_app.
  destruct (H2 Hc) as [Hlow | [Hc1 Hnone]].
  - left. rewrite last_app, Hlow. reflexivity.
  - rewrite Hnone, app_nil_r. destruct (H1 Hc1) as [Hlow | [Hc0 Hnone1]].
    + by left.
    + right. by split.
Qed.

Lemma led_step_ok (s s' : State) : led_step s s' -> led_ok s -> led_ok s'.
Proof.
  intros (evs & Htr & Hstep) Hok Hc. rewrite Htr, indicator_app.
  destruct (Hstep Hc) as [-> | [Hc0 ->]]; [reflexivity|].
  cbn [last]. by apply Hok.
Qed.

Lemma led_step_quiet (s s' : State) (evs : list Event) :
  trace s' = trace s ++ evs -> wifiConnected s' = wifiConnected s ->
  led_writes evs = [] \/ last (led_writes evs) = Some LOW ->
  led_step s s'.
Proof.
  intros Htr Hc Hled. exists evs. split; [exact Htr|].
  intros Hc'. destruct Hled as [Hnone | Hlow]; [right | by left].
  split; [congruence | exact Hnone].
Qed.

Lemma dispatch_led_writes (endpoint : string) (reply : HttpReply) (s : State) :
  led_writes (dispatch_events endpoint reply s) = []
  \/ last (led_writes (dispatch_events endpoint reply s)) = Some LOW.
Proof.
  destruct (wifiConnected s) eqn:Hconn;
    [destruct (decide (baseUrl s = "")) as [Hbase | Hbase]|].
  - left. unfold dispatch_events.
    rewrite makeApiCall_fails_guard, new_events_emit_all by (by right). reflexivity.
  - right. rewrite (dispatch_events_request _ _ _ Hconn Hbase).
    unfold request_events, auth_header, reply_log.
    destruct (WString.startsWith (baseUrl s +:+ endpoint) "https://");
      destruct (bool_decide (apiKey s = ""));
      destruct (0 <? httpResponseCode reply); reflexivity.
  - left. unfold dispatch_events.
    rewrite makeApiCall_fails_guard, new_events_emit_all by (by left). reflexivity.
Qed.

Lemma channel_step_led (c : Channel) (p : ButtonPoll) (s : State) :
  led_step s (channel_step c p s).
Proof.
  destruct (channel_step_own c p s) as (evs & (Htr & Hc & _) & _ & _ & Hshape).
  apply (led_step_quiet _ _ evs Htr Hc).
  destruct Hshape as [-> | ->]; [by left|].
  change (led_writes (SerialPrintln ?l :: ?d)) with (led_writes d).
  apply dispatch_led_writes.
Qed.

Lemma poll_led (p : ButtonPoll) (s : State) :
  led_step s (checkButtonPressAndRelease p s).
Proof.
  rewrite checkButtonPressAndRelease_steps.
  eapply led_step_trans; apply channel_step_led.
Qed.

Lemma wait_events_led (attempts : Z) (rounds : nat) :
  led_writes (wait_events attempts rounds ++ [DigitalWrite STATUS_LED LOW])
  = led_writes (wait_events attempts rounds) ++ [LOW].
Proof. by rewrite led_writes_app. Qed.

Lemma connectToWifi_led (env : WiFiEnv) (s : State) :
  led_step s (connectToWifi env s).
Proof.
  destruct (decide (wifiSsid s = "")) as [Hssid | Hssid];
    [|destruct (decide (wifiPass s = "")) as [Hpass | Hpass]].
  - rewrite (connectToWifi_without_guard env s) by (by left).
    eapply led_step_quiet; [reflexivity | reflexivity | by left].
  - rewrite (connectToWifi_without_guard env s) by (by right).
    eapply led_step_quiet; [reflexivity | reflexivity | by left].
  - destruct (connectToWifi_attempt env s Hssid Hpass) as (rounds & _ & _ & _ & _ & ->).
    eexists. split; [reflexivity|].
    cbn [wifiConnected set_wifiConnected]. intros ->. left.
    unfold connect_events. rewrite !led_writes_app.
    change (led_writes [SerialPrintln (String NL "WiFi connected");
                        SerialPrint "IP address: "; SerialPrintln (localIP env);
                        DigitalWrite STATUS_LED LOW]) with [LOW].
    rewrite !app_assoc. apply last_snoc.
Qed.

Lemma reconnect_if_complete_led (env : WiFiEnv) (s : State) :
  led_step s (reconnect_if_complete env s).
Proof.
  unfold reconnect_if_complete.
  destruct (_ && _); [apply connectToWifi_led | apply led_step_refl].
Qed.

Lemma checkSerialInput_led (env : WiFiEnv) (line : option string) (s : State) :
  led_step s (checkSerialInput env line s).
Proof.
  destruct line as [raw|]; [|apply led_step_refl].
  assert (Hvalue : forall ssid pass base key notice : string,
            led_step s (after_value_command env ssid pass base key (WString.trim raw) notice s)).
  { intros. eapply led_step_quiet; [reflexivity | reflexivity | by left]. }
  destruct (is_value_command (WString.trim raw)) eqn:Hval.
  - unfold is_value_command in Hval.
    destruct (WString.startsWith (WString.trim raw) "WIFI_SSID ") eqn:Hssid;
      [|destruct (WString.startsWith (WString.trim raw) "WIFI_PASS ") eqn:Hpass;
        [|destruct (WString.startsWith (WString.trim raw) "BASE_URL ") eqn:Hurl;
          [|destruct (WString.startsWith (WString.trim raw) "API_KEY ") eqn:Hkey;
            [|discriminate Hval]]]].
    + rewrite (checkSerialInput_ssid env raw s Hssid).
      eapply led_step_trans; [|apply reconnect_if_complete_led]. apply Hvalue.
    + rewrite (checkSerialInput_pass env raw s Hpass).
      eapply led_step_trans; [|apply reconnect_if_complete_led]. apply Hvalue.
    + rewrite (checkSerialInput_url env raw s Hurl). apply Hvalue.
    + rewrite (checkSerialInput_key env raw s Hkey). apply Hvalue.
  - destruct (decide (WString.c_str (WString.trim raw) = "FLASH_RESET"))
      as [Hreset | Hother].
    + rewrite (checkSerialInput_reset_word env raw s Hreset), resetConfig_state.
      eexists. split; [cbn [trace Serial_println emit]; rewrite <- app_assoc; reflexivity|].
      cbn [wifiConnected]. discriminate.
    + rewrite (checkSerialInput_unknown env raw s Hval Hother).
      eapply led_step_quiet; [reflexivity | reflexivity | by left].
Qed.

Lemma loop_led (env : WiFiEnv) (line : option string) (p : ButtonPoll) (now : Z)
    (s : State) :
  led_ok s ->
  led_ok (loop env line p now s)
  /\ indicator (trace (loop env line p now s))
     = Some (if wifiConnected (loop env line p now s) then LOW
             else if now mod 1000 <? 50 then HIGH else LOW).
Proof.
  intros Hok.
  assert (Hmid : led_ok (checkButtonPressAndRelease p (checkSerialInput env line s))).
  { eapply led_step_ok; [|exact Hok].
    eapply led_step_trans; [apply checkSerialInput_led | apply poll_led]. }
  unfold loop. cbv zeta.
  destruct (wifiConnected (checkButtonPressAndRelease p (checkSerialInput env line s)))
    eqn:Hc; cbn [negb].
  - split; [exact Hmid|]. rewrite Hc. by apply Hmid.
  - split.
    + intros Hc'. cbn [wifiConnected digitalWrite emit] in Hc'. congruence.
    + cbn [wifiConnected digitalWrite emit trace]. rewrite Hc, indicator_app.
      reflexivity.
Qed.

Lemma run_loop_led (inputs : list LoopInput) (s : State) :
  led_ok s -> led_ok (run_loop inputs s).
Proof.
  revert s. induction inputs as [|i inputs IH]; intros s Hok; [exact Hok|].
  apply IH. by apply loop_led.
Qed.

Lemma setup_led (env : WiFiEnv) (s : State) : led_ok (snd (setup env s)).
Proof.
  rewrite setup_steps.
  eapply (led_step_ok (loadConfig (digitalWrite STATUS_LED LOW s))).
  - eapply led_step_trans; [apply reconnect_if_complete_led|].
    apply (led_step_quiet _ _ help_lines);
      [apply trace_emit_all | apply wifiConnected_emit_all | by left].
  - intros _. rewrite loadConfig_trace. cbn [trace digitalWrite emit].
    rewrite <- app_assoc, indicator_app. reflexivity.
Qed.

(** X13.  From [setup] on, the status LED shows the connectivity at the end
    of every pass of the main loop: off while the device is connected (a
    request or a connection attempt may switch it on, but never leaves it
    on), and while it is not connected on during the first 50 ms of each
    second of the clock and off otherwise. *)
Theorem status_led_after_each_pass (env : WiFiEnv) (boot : State)
    (inputs : list LoopInput) (i : LoopInput) :
  let s := run_loop inputs (snd (setup env boot)) in
  let s' := loop (loop_env i) (loop_line i) (loop_poll i) (loop_now i) s in
  indicator (trace s')
  = Some (if wifiConnected s' then LOW
          else if loop_now i mod 1000 <? 50 then HIGH else LOW).
Proof.
  intros s s'. apply loop_led, run_loop_led, setup_led.
Qed.

(** * The further properties applied to concrete inputs *)

(** X1: the network name arrives on a device that was never configured. *)
Lemma store_stays_in_sync_witness :
  Forall (fun i => accepting (loop_env i)) [ssid_pass_input]
  /\ synced initial_state /\ synced (run_loop [ssid_pass_input] initial_state).
Proof.
  assert (Haccept : Forall (fun i => accepting (loop_env i)) [ssid_pass_input]).
  { apply Forall_cons. split; [intros key value; reflexivity | apply Forall_nil_2]. }
  assert (Hsync : synced initial_state) by reflexivity.
  split_and!; [exact Haccept | exact Hsync |].
  destruct (store_stays_in_sync [ssid_pass_input] initial_state Haccept Hsync)
    as [Hrun _].
  exact Hrun.
Defined.

(** X2: a device that was never configured gets its network name, and is
    switched off and on. *)
Lemma config_survives_power_cycle_witness :
  cut_config (stored_config (preferences initial_state))
  = stored_config (preferences initial_state)
  /\ Forall (fun i => accepting (loop_env i)) [ssid_pass_input]
  /\ preferences
       (snd (setup link_up
               (power_cycle (run_loop [ssid_pass_input] (snd (setup link_down initial_state))))))
     = preferences (run_loop [ssid_pass_input] (snd (setup link_down initial_state))).
Proof.
  assert (Hboot : cut_config (stored_config (preferences initial_state))
                  = stored_config (preferences initial_state)) by reflexivity.
  assert (Haccept : Forall (fun i => accepting (loop_env i)) [ssid_pass_input]).
  { apply Forall_cons. split; [intros key value; reflexivity | apply Forall_nil_2]. }
  split_and!; [exact Hboot | exact Haccept |].
  destruct (config_survives_power_cycle link_down link_up initial_state
              [ssid_pass_input] Hboot Haccept) as (_ & _ & Hstore & _).
  exact Hstore.
Defined.

(** X6: a request of the configured device that the server answers with an
    error. *)
Lemma request_bracketed_by_led_witness :
  wifiConnected configured_state = true
  /\ baseUrl configured_state <> ""
  /\ led_writes (dispatch_events "/play" (mkHttpReply (-1) "") configured_state)
     = [HIGH; LOW].
Proof.
  assert (Hbase : baseUrl configured_state <> "") by discriminate.
  split_and!; [reflexivity | exact Hbase |].
  destruct (request_bracketed_by_led "/play" (mkHttpReply (-1) "") configured_state
              eq_refl Hbase) as (Hled & _).
  exact Hled.
Defined.

(** X7: the same request on a secure and on a plain base address. *)
Lemma transport_follows_scheme_witness :
  wifiConnected secure_state = true
  /\ baseUrl secure_state <> ""
  /\ baseUrl configured_state <> ""
  /\ (In SetInsecure (dispatch_events "/play" ok_reply secure_state)
      <-> WString.startsWith (baseUrl secure_state +:+ "/play") "https://" = true)
  /\ (In SetInsecure (dispatch_events "/play" ok_reply configured_state)
      <-> WString.startsWith (baseUrl configured_state +:+ "/play") "https://" = true).
Proof.
  assert (Hsecure : baseUrl secure_state <> "") by discriminate.
  assert (Hplain : baseUrl configured_state <> "") by discriminate.
  split_and!; [reflexivity | exact Hsecure | exact Hplain | |].
  - destruct (transport_follows_scheme "/play" ok_reply secure_state eq_refl Hsecure)
      as (Hiff & _).
    exact Hiff.
  - destruct (transport_follows_scheme "/play" ok_reply configured_state eq_refl Hplain)
      as (Hiff & _).
    exact Hiff.
Defined.

(** X8: the first button is pressed for 80 ms, once alone on the configured
    device and once on a device without configuration while the second button
    is held down. *)
Lemma channels_do_not_interfere_witness :
  channel_inputs Channel1 [poll1 LOW 1000; poll1 HIGH 1080]
  = channel_inputs Channel1 [poll1_both LOW 1000; poll1_both HIGH 1080]
  /\ tracking Channel1 configured_state = tracking Channel1 initial_state
  /\ activations Channel1
       (new_events configured_state
          (run_polls [poll1 LOW 1000; poll1 HIGH 1080] configured_state))
     = activations Channel1
         (new_events initial_state
            (run_polls [poll1_both LOW 1000; poll1_both HIGH 1080] initial_state)).
Proof.
  split; [reflexivity|]. split; [reflexivity|].
  destruct (channels_do_not_interfere Channel1
              [poll1 LOW 1000; poll1 HIGH 1080]
              [poll1_both LOW 1000; poll1_both HIGH 1080]
              configured_state initial_state eq_refl eq_refl) as (Hact & _).
  exact Hact.
Defined.

(** X9: the second button is found released on a device on which it was
    never pressed. *)
Lemma idle_channel_never_activates_witness :
  (isDown Channel2 configured_state = false \/ level Channel2 (poll2 HIGH 5000) <> HIGH)
  /\ activations Channel2
       (new_events configured_state
          (checkButtonPressAndRelease (poll2 HIGH 5000) configured_state))
     = 0%nat.
Proof.
  split; [left; reflexivity|].
  exact (idle_channel_never_activates Channel2 (poll2 HIGH 5000) configured_state
           (or_introl eq_refl)).
Defined.

(** X10: a long press on a device that was never configured. *)
Lemma offline_polls_stay_off_the_network_witness :
  offline initial_state
  /\ Forall (fun e => is_network_event e = false)
       (new_events initial_state
          (run_polls [poll2 LOW 1000; poll2 HIGH 1080] initial_state)).
Proof.
  assert (Hoff : offline initial_state) by (left; reflexivity).
  split; [exact Hoff|].
  destruct (offline_polls_stay_off_the_network [poll2 LOW 1000; poll2 HIGH 1080]
              initial_state Hoff) as (Hquiet & _).
  exact Hquiet.
Defined.

(** X11: two stores with different secrets behind the same network name. *)
Lemma loadConfig_log_hides_secrets_witness :
  preferences_getString "wifiSsid" "" configured_state
  = preferences_getString "wifiSsid" "" other_secrets_state
  /\ preferences_getString "baseUrl" "" configured_state
     = preferences_getString "baseUrl" "" other_secrets_state
  /\ preferences_getString "wifiPass" "" configured_state
     <> preferences_getString "wifiPass" "" other_secrets_state
  /\ preferences_getString "apiKey" "" configured_state
     <> preferences_getString "apiKey" "" other_secrets_state
  /\ new_events configured_state (loadConfig configured_state)
     = new_events other_secrets_state (loadConfig other_secrets_state).
Proof.
  assert (Hkey : preferences_getString "apiKey" "" configured_state = ""
                 <-> preferences_getString "apiKey" "" other_secrets_state = "")
    by (split; intros Hempty; vm_compute in Hempty; discriminate Hempty).
  split_and!; [reflexivity | reflexivity | | |].
  - vm_compute. discriminate.
  - vm_compute. discriminate.
  - exact (loadConfig_log_hides_secrets configured_state other_secrets_state
             eq_refl eq_refl Hkey).
Defined.

(** X14: a reset, then a long press of the second button. *)
Lemma reset_device_stays_silent_witness :
  WString.trim "FLASH_RESET" = "FLASH_RESET"
  /\ Forall (fun e => is_network_event e = false)
       (new_events (checkSerialInput link_up (Some "FLASH_RESET") configured_state)
          (run_polls [poll2 LOW 1000; poll2 HIGH 1080]
             (checkSerialInput link_up (Some "FLASH_RESET") configured_state))).
Proof.
  split; [reflexivity|].
  destruct (reset_device_stays_silent link_up link_up "FLASH_RESET" configured_state
              [poll2 LOW 1000; poll2 HIGH 1080] eq_refl) as (Hquiet & _).
  exact Hquiet.
Defined.
